(** * AxesDatabaseHandler: the database-backed login attempt handler

    A shallow embedding of [axes/handlers/database.py].  The handler reacts
    to three authentication outcomes (failed login, successful login,
    logout); it keeps one table of failed attempts ([AccessAttempt]) and one
    table of successful sessions ([AccessLog]), writes to a logger, sends the
    [user_locked_out] signal and raises [AxesSignalPermissionDenied] when the
    failure limit is reached.

    The handler is stateful and may raise after it has written to the
    database, so it is embedded in a state-and-exception monad over a
    [World] that holds both tables, the logger output and the signals sent.
    A raised exception keeps the writes made before it. *)

From Stdlib Require Import ZArith List String Bool Lia.
Import ListNotations.

Local Open Scope string_scope.
Local Open Scope list_scope.
Local Open Scope Z_scope.

(** * Data model *)

(** Timestamps, as returned by [django.utils.timezone.now]; the cooldown is a
    duration in the same unit. *)
Definition datetime : Type := Z.

(** [axes.models.AccessAttempt]: a row of the failed-attempt table, with the
    columns the handler writes at [AccessAttempt.objects.create]. *)
Module AccessAttempt.
Record t : Type := create {
  username : string;
  ip_address : string;
  user_agent : string;
  get_data : string;
  post_data : string;
  http_accept : string;
  path_info : string;
  failures_since_start : Z;
  attempt_time : datetime
}.
End AccessAttempt.

(** [axes.models.AccessLog]: a row of the session table.  [logout_time] is
    not given at creation: it is null until a logout stamps it. *)
Module AccessLog.
Record t : Type := Build {
  username : string;
  ip_address : string;
  user_agent : string;
  http_accept : string;
  path_info : string;
  attempt_time : datetime;
  trusted : bool;
  logout_time : option datetime
}.
Definition create (username ip_address user_agent http_accept path_info : string)
  (attempt_time : datetime) (trusted : bool) : t :=
  Build username ip_address user_agent http_accept path_info attempt_time trusted None.
End AccessLog.

(** Modelled from the spec: the identification policy read by the absent
    [axes.attempts] queries.  The identity is a composite key whose fields
    are configurable among username, source address, user agent and path;
    a flag says whether the field takes part in the key. *)
Record IdentificationPolicy : Type := {
  by_username : bool;
  by_source_address : bool;
  by_user_agent : bool;
  by_path : bool
}.

(** [axes.conf.settings]: the settings the handler reads, and the two the
    absent [axes.attempts] queries read ([cooldown_period] and
    [identification_policy], named as in the spec's configuration). *)
Record Settings : Type := {
  AXES_FAILURE_LIMIT : Z;
  AXES_RESET_ON_SUCCESS : bool;
  AXES_DISABLE_ACCESS_LOG : bool;
  AXES_DISABLE_SUCCESS_ACCESS_LOG : bool;
  cooldown_period : Z;
  identification_policy : IdentificationPolicy
}.

(** The collaborators the handler calls and whose code is elsewhere: the web
    framework's request and user objects, the [axes.helpers] accessors, and
    the whitelist checks of [AxesBaseHandler] and [axes.attempts].  The
    handler is verified for every implementation of them. *)
Class Framework : Type := {
  HttpRequest : Type;
  Credentials : Type;
  User : Type;
  QueryDict : Type;
  GET : HttpRequest -> QueryDict;
  POST : HttpRequest -> QueryDict;
  get_username : User -> string;
  get_client_ip_address : HttpRequest -> string;
  get_client_path_info : HttpRequest -> string;
  get_client_http_accept : HttpRequest -> string;
  get_client_str : string -> string -> string -> string -> string;
  get_client_username : HttpRequest -> Credentials -> string;
  get_client_user_agent : HttpRequest -> string;
  get_credentials : string -> Credentials;
  get_query_str : QueryDict -> string;
  (* AxesBaseHandler.is_whitelisted, inherited by the database handler *)
  is_whitelisted : HttpRequest -> Credentials -> bool;
  (* axes.attempts.is_user_attempt_whitelisted *)
  is_user_attempt_whitelisted : HttpRequest -> Credentials -> bool;
  (* AxesBaseHandler.is_locked, reached through super() *)
  AxesBaseHandler_is_locked :
    list AccessAttempt.t -> HttpRequest -> Credentials -> option datetime -> bool
}.

(** Logger output. *)
Inductive Level : Type := ERROR | WARNING | INFO.

Inductive LogArg : Type :=
| Str (s : string)
| Int (n : Z).

Record LogRecord : Type := {
  levelname : Level;
  msg : string;
  args : list LogArg
}.

Inductive Exception : Type :=
| AxesSignalPermissionDenied (message : string)
| AttributeError (message : string).

Inductive Result (A : Type) : Type :=
| Returned (a : A)
| Raised (e : Exception).
Arguments Returned {A} a.
Arguments Raised {A} e.

(** A [user_locked_out.send] call with its keyword arguments. *)
Record LockedOut {fw : Framework} : Type := {
  sender : string;
  lo_request : HttpRequest;
  lo_username : string;
  lo_ip_address : string
}.

(** Everything the handler reads and writes. *)
Record World {fw : Framework} : Type := {
  attempts : list AccessAttempt.t;
  access_logs : list AccessLog.t;
  logged : list LogRecord;
  user_locked_out : list LockedOut
}.

(** A failed login as the authentication layer reports it: the clock reading
    and the arguments of one [user_login_failed] call. *)
Record FailureEvent {fw : Framework} : Type := {
  ev_time : datetime;
  ev_credentials : Credentials;
  ev_request : HttpRequest
}.

(** * A concrete framework

    An instance of the collaborators on which the handler can be run:
    requests are records of the values the accessors return, credentials
    and users are user names, the whitelist exempts the loopback address and
    the user-attempt whitelist exempts one account. *)
Module Demo.

Record Request : Type := {
  remote_addr : string;
  agent : string;
  path : string;
  accept : string;
  query : string;
  form : string
}.

Definition client_str (username ip_address user_agent path_info : string) : string :=
  (username ++ " " ++ ip_address ++ " " ++ user_agent ++ " " ++ path_info)%string.

#[export] Instance framework : Framework := {|
  HttpRequest := Request;
  Credentials := string;
  User := string;
  QueryDict := string;
  GET := query;
  POST := form;
  get_username := fun u => u;
  get_client_ip_address := remote_addr;
  get_client_path_info := path;
  get_client_http_accept := accept;
  get_client_str := client_str;
  get_client_username := fun _ c => c;
  get_client_user_agent := agent;
  get_credentials := fun u => u;
  get_query_str := fun q => q;
  is_whitelisted := fun r _ => String.eqb (remote_addr r) "127.0.0.1";
  is_user_attempt_whitelisted := fun _ c => String.eqb c "service";
  AxesBaseHandler_is_locked := fun _ _ _ _ => true
|}.

Definition username_policy : IdentificationPolicy :=
  {| by_username := true; by_source_address := false;
     by_user_agent := false; by_path := false |}.

(** Three failures lock a client out; a record expires after 100 time units. *)
Definition settings : Settings :=
  {| AXES_FAILURE_LIMIT := 3;
     AXES_RESET_ON_SUCCESS := true;
     AXES_DISABLE_ACCESS_LOG := false;
     AXES_DISABLE_SUCCESS_ACCESS_LOG := false;
     cooldown_period := 100;
     identification_policy := username_policy |}.

(** The same, with the lowest failure limit. *)
Definition strict_settings : Settings :=
  {| AXES_FAILURE_LIMIT := 1;
     AXES_RESET_ON_SUCCESS := true;
     AXES_DISABLE_ACCESS_LOG := false;
     AXES_DISABLE_SUCCESS_ACCESS_LOG := false;
     cooldown_period := 100;
     identification_policy := username_policy |}.

(** Access logging switched off altogether, and no reset on success. *)
Definition unlogged_settings : Settings :=
  {| AXES_FAILURE_LIMIT := 3;
     AXES_RESET_ON_SUCCESS := false;
     AXES_DISABLE_ACCESS_LOG := true;
     AXES_DISABLE_SUCCESS_ACCESS_LOG := true;
     cooldown_period := 100;
     identification_policy := username_policy |}.

(** Successful logins are logged, but access logging is disabled. *)
Definition half_logged_settings : Settings :=
  {| AXES_FAILURE_LIMIT := 3;
     AXES_RESET_ON_SUCCESS := false;
     AXES_DISABLE_ACCESS_LOG := true;
     AXES_DISABLE_SUCCESS_ACCESS_LOG := false;
     cooldown_period := 100;
     identification_policy := username_policy |}.

Definition browser : Request :=
  {| remote_addr := "203.0.113.7"; agent := "Mozilla"; path := "/login";
     accept := "text/html"; query := "next=/"; form := "username=alice" |}.

Definition script : Request :=
  {| remote_addr := "198.51.100.9"; agent := "curl"; path := "/admin/login";
     accept := "*/*"; query := ""; form := "username=alice&x=1" |}.

Definition loopback : Request :=
  {| remote_addr := "127.0.0.1"; agent := "Mozilla"; path := "/login";
     accept := "text/html"; query := ""; form := "username=alice" |}.

Definition empty_world : World :=
  {| attempts := []; access_logs := []; logged := []; user_locked_out := [] |}.

Definition attempt_of (username : string) (failures : Z) (time : datetime)
  : AccessAttempt.t :=
  AccessAttempt.create username "203.0.113.7" "Mozilla" "next=/" "username=alice"
    "text/html" "/login" failures time.

Definition world_with (rows : list AccessAttempt.t) : World :=
  {| attempts := rows; access_logs := []; logged := []; user_locked_out := [] |}.

Definition failure (time : datetime) (request : Request) (username : string)
  : FailureEvent :=
  {| ev_time := time; ev_credentials := username; ev_request := request |}.

Definition session (username : string) (time : datetime) (logout : option datetime)
  : AccessLog.t :=
  AccessLog.Build username "203.0.113.7" "Mozilla" "text/html" "/login" time true logout.

(** Two sessions of one user, opened at times 10 and 20 and still open, and
    a session of another user. *)
Definition world_with_sessions : World :=
  {| attempts := [];
     access_logs := [session "alice" 10 None; session "alice" 20 None;
                     session "bob" 15 None];
     logged := []; user_locked_out := [] |}.

(** Three failed logins for one user name, from two clients. *)
Definition three_failures : list FailureEvent :=
  [failure 10 browser "alice"; failure 20 script "alice"; failure 30 browser "alice"].

End Demo.

(** * The handler *)

Section Handler.
Context {fw : Framework}.
Variable settings : Settings.


(** ** The state-and-exception monad *)

Definition M (A : Type) : Type := World -> Result A * World.

Definition ret {A : Type} (a : A) : M A := fun w => (Returned a, w).

Definition bind {A B : Type} (m : M A) (k : A -> M B) : M B :=
  fun w =>
    match m w with
    | (Returned a, w') => k a w'
    | (Raised e, w') => (Raised e, w')
    end.

Definition raise {A : Type} (e : Exception) : M A := fun w => (Raised e, w).

Notation "x <- m ;; k" := (bind m (fun x => k))
  (at level 61, m at next level, right associativity).
Notation "m ;;; k" := (bind m (fun _ => k))
  (at level 61, right associativity).

Definition set_attempts (rows : list AccessAttempt.t) (w : World) : World :=
  {| attempts := rows; access_logs := access_logs w;
     logged := logged w; user_locked_out := user_locked_out w |}.

Definition set_access_logs (rows : list AccessLog.t) (w : World) : World :=
  {| attempts := attempts w; access_logs := rows;
     logged := logged w; user_locked_out := user_locked_out w |}.

Definition log (lvl : Level) (fmt : string) (a : list LogArg) : M unit :=
  fun w =>
    (Returned tt,
     {| attempts := attempts w; access_logs := access_logs w;
        logged := logged w ++ [{| levelname := lvl; msg := fmt; args := a |}];
        user_locked_out := user_locked_out w |}).

Definition user_locked_out_send (s : string) (request : HttpRequest)
  (username ip_address : string) : M unit :=
  fun w =>
    (Returned tt,
     {| attempts := attempts w; access_logs := access_logs w;
        logged := logged w;
        user_locked_out := user_locked_out w ++
          [{| sender := s; lo_request := request;
              lo_username := username; lo_ip_address := ip_address |}] |}).

(** ** Query sets over the attempt table

    A Django query set is lazy: it is a filter, evaluated against the table
    when [aggregate], [update] or [delete] runs. *)

Definition QuerySet : Type := AccessAttempt.t -> bool.

(** [Max('failures_since_start')]: [None] on the empty selection. *)
Fixpoint Max (rows : list AccessAttempt.t) : option Z :=
  match rows with
  | [] => None
  | r :: rest =>
      match Max rest with
      | None => Some (AccessAttempt.failures_since_start r)
      | Some m => Some (Z.max (AccessAttempt.failures_since_start r) m)
      end
  end.

Definition aggregate_Max (qs : QuerySet) : M (option Z) :=
  fun w => (Returned (Max (filter qs (attempts w))), w).

(** Python's [x or 0]: [None] and [0] are the falsy values of the aggregate. *)
Definition or_0 (x : option Z) : Z :=
  match x with
  | None => 0
  | Some v => if v =? 0 then 0 else v
  end.

(** [qs.update(...)]: the assignment is applied to every selected row, in
    place; the other rows are left as they are. *)
Definition update_rows (qs : QuerySet) (f : AccessAttempt.t -> AccessAttempt.t)
  (rows : list AccessAttempt.t) : list AccessAttempt.t :=
  map (fun r => if qs r then f r else r) rows.

Definition update (qs : QuerySet) (f : AccessAttempt.t -> AccessAttempt.t) : M Z :=
  fun w =>
    (Returned (Z.of_nat (List.length (filter qs (attempts w)))),
     set_attempts (update_rows qs f (attempts w)) w).

(** [qs.delete()]: removes the selected rows and returns how many. *)
Definition delete (qs : QuerySet) : M Z :=
  fun w =>
    (Returned (Z.of_nat (List.length (filter qs (attempts w)))),
     set_attempts (filter (fun r => negb (qs r)) (attempts w)) w).

Definition AccessAttempt_objects_create (r : AccessAttempt.t) : M unit :=
  fun w => (Returned tt, set_attempts (attempts w ++ [r]) w).

Definition AccessLog_objects_create (r : AccessLog.t) : M unit :=
  fun w => (Returned tt, set_access_logs (access_logs w ++ [r]) w).

(** ** The queries of [axes.attempts] *)

(** Modelled from the spec: the identity of an attempt, absent with
    [axes.attempts] and [axes.helpers].  It is the composite key made of the
    fields the identification policy selects. *)
Record Identity : Type := {
  id_username : option string;
  id_source_address : option string;
  id_user_agent : option string;
  id_path : option string
}.

Definition key_field (selected : bool) (v : string) : option string :=
  if selected then Some v else None.

Definition make_identity (username ip_address user_agent path_info : string) : Identity :=
  let p := identification_policy settings in
  {| id_username := key_field (by_username p) username;
     id_source_address := key_field (by_source_address p) ip_address;
     id_user_agent := key_field (by_user_agent p) user_agent;
     id_path := key_field (by_path p) path_info |}.

(** Modelled from the spec: the ClientIdentity Resolver on a raw attempt
    context, absent with [axes.attempts]. *)
Definition client_identity (request : HttpRequest) (credentials : Credentials) : Identity :=
  make_identity (get_client_username request credentials)
    (get_client_ip_address request)
    (get_client_user_agent request)
    (get_client_path_info request).

(** Modelled from the spec: the identity a stored record is filed under. *)
Definition record_identity (r : AccessAttempt.t) : Identity :=
  make_identity (AccessAttempt.username r) (AccessAttempt.ip_address r)
    (AccessAttempt.user_agent r) (AccessAttempt.path_info r).

Definition key_eqb (a b : option string) : bool :=
  match a, b with
  | Some x, Some y => String.eqb x y
  | None, None => true
  | _, _ => false
  end.

Definition identity_eqb (a b : Identity) : bool :=
  key_eqb (id_username a) (id_username b)
  && key_eqb (id_source_address a) (id_source_address b)
  && key_eqb (id_user_agent a) (id_user_agent b)
  && key_eqb (id_path a) (id_path b).

(** Modelled from the spec: a record is expired when its last attempt time
    is older than the cooldown period, and active otherwise. *)
Definition expired (attempt_time : datetime) (r : AccessAttempt.t) : bool :=
  AccessAttempt.attempt_time r <? attempt_time - cooldown_period settings.

Definition active (attempt_time : datetime) (r : AccessAttempt.t) : bool :=
  negb (expired attempt_time r).

(** Modelled from the spec: the records filed under an identity, absent with
    [axes.attempts]. *)
Definition of_identity (i : Identity) : QuerySet :=
  fun r => identity_eqb (record_identity r) i.

(** Modelled from the spec: [axes.attempts.get_user_attempts], absent from
    the sources, is the store's [find_active(identity, as_of)]: the records
    of the client's identity that are active at [attempt_time]. *)
Definition get_user_attempts (request : HttpRequest) (credentials : Credentials)
  (attempt_time : datetime) : QuerySet :=
  fun r => of_identity (client_identity request credentials) r && active attempt_time r.

(** Modelled from the spec: [axes.attempts.clean_expired_user_attempts],
    absent from the sources, is the store's [sweep_expired(as_of)]: it
    removes every expired record, of any identity, and returns how many. *)
Definition clean_expired_user_attempts (attempt_time : datetime) : M Z :=
  delete (expired attempt_time).

(** Modelled from the spec: [axes.attempts.reset_user_attempts], absent from
    the sources, is the store's [reset(identity)]: it deletes the records of
    the client's identity and returns how many. *)
Definition reset_user_attempts (request : HttpRequest) (credentials : Credentials) : M Z :=
  delete (of_identity (client_identity request credentials)).

(** ** AxesDatabaseHandler *)

Definition nl : string := String (Ascii.ascii_of_nat 10) EmptyString.

Definition separator : string := (nl ++ "---------" ++ nl)%string.

Definition get_failures (request : HttpRequest) (credentials : Credentials)
  (attempt_time : datetime) : M Z :=
  let attempts := get_user_attempts request credentials attempt_time in
  m <- aggregate_Max attempts ;;
  ret (or_0 m).

Definition is_locked (request : HttpRequest) (credentials : Credentials)
  (attempt_time : option datetime) : M bool :=
  if is_user_attempt_whitelisted request credentials then ret false
  else fun w =>
    (Returned (AxesBaseHandler_is_locked (attempts w) request credentials attempt_time), w).

(** The assignment of the [attempts.update(...)] call: six columns are
    written, the others are not named. *)
Definition updated (get_data post_data http_accept path_info : string)
  (failures_since_start : Z) (attempt_time : datetime)
  (r : AccessAttempt.t) : AccessAttempt.t :=
  {| AccessAttempt.username := AccessAttempt.username r;
     AccessAttempt.ip_address := AccessAttempt.ip_address r;
     AccessAttempt.user_agent := AccessAttempt.user_agent r;
     AccessAttempt.get_data := (AccessAttempt.get_data r ++ (separator ++ get_data))%string;
     AccessAttempt.post_data := (AccessAttempt.post_data r ++ (separator ++ post_data))%string;
     AccessAttempt.http_accept := http_accept;
     AccessAttempt.path_info := path_info;
     AccessAttempt.failures_since_start := failures_since_start;
     AccessAttempt.attempt_time := attempt_time |}.

(** [user_login_failed]; [attempt_time] is the value [now()] returns at the
    first line of the method. *)
Definition user_login_failed (attempt_time : datetime) (credentials : Credentials)
  (request : option HttpRequest) : M unit :=
  clean_expired_user_attempts attempt_time ;;;
  match request with
  | None =>
      log ERROR "AXES: AxesDatabaseHandler.user_login_failed does not function without a request." []
  | Some request =>
      let username := get_client_username request credentials in
      let ip_address := get_client_ip_address request in
      let user_agent := get_client_user_agent request in
      let path_info := get_client_path_info request in
      let http_accept := get_client_http_accept request in
      let client_str := get_client_str username ip_address user_agent path_info in
      let get_data := get_query_str (GET request) in
      let post_data := get_query_str (POST request) in
      if is_whitelisted request credentials then
        log INFO "AXES: Login failed from whitelisted client %s." [Str client_str]
      else
        failures <- get_failures request credentials attempt_time ;;
        let failures_since_start := 1 + failures in
        (if 1 <? failures_since_start then
           log WARNING
             "AXES: Repeated login failure by %s. Count = %d of %d. Updating existing record in the database."
             [Str client_str; Int failures_since_start; Int (AXES_FAILURE_LIMIT settings)] ;;;
           let attempts := get_user_attempts request credentials attempt_time in
           update attempts
             (updated get_data post_data http_accept path_info
                failures_since_start attempt_time) ;;;
           ret tt
         else
           log WARNING
             "AXES: New login failure by %s. Creating new record in the database."
             [Str client_str] ;;;
           AccessAttempt_objects_create
             (AccessAttempt.create username ip_address user_agent get_data post_data
                http_accept path_info failures_since_start attempt_time)) ;;;
        if AXES_FAILURE_LIMIT settings <=? failures_since_start then
          log WARNING "AXES: Locking out %s after repeated login failures." [Str client_str] ;;;
          user_locked_out_send "axes" request username ip_address ;;;
          raise (AxesSignalPermissionDenied "Locked out due to repeated login failures.")
        else ret tt
  end.

(** [user_logged_in]. *)
Definition user_logged_in (attempt_time : datetime) (request : HttpRequest)
  (user : User) : M unit :=
  clean_expired_user_attempts attempt_time ;;;
  let username := get_username user in
  let credentials := get_credentials username in
  let ip_address := get_client_ip_address request in
  let user_agent := get_client_user_agent request in
  let path_info := get_client_path_info request in
  let http_accept := get_client_http_accept request in
  let client_str := get_client_str username ip_address user_agent path_info in
  log INFO "AXES: Successful login by %s." [Str client_str] ;;;
  (if negb (AXES_DISABLE_SUCCESS_ACCESS_LOG settings) then
     AccessLog_objects_create
       (AccessLog.create username ip_address user_agent http_accept path_info
          attempt_time true)
   else ret tt) ;;;
  if AXES_RESET_ON_SUCCESS settings then
    count <- reset_user_attempts request credentials ;;
    log INFO "AXES: Deleted %d failed login attempts by %s from database."
      [Int count; Str client_str]
  else ret tt.

(** Python truthiness of a string: the empty string is falsy. *)
Definition truthy (s : string) : bool := negb (String.eqb s "").

(** The selection and assignment of the logout query:
    [filter(username=username, logout_time__isnull=True).update(logout_time=attempt_time)]. *)
Definition open_session_of (username : string) (l : AccessLog.t) : bool :=
  String.eqb (AccessLog.username l) username
  && match AccessLog.logout_time l with None => true | Some _ => false end.

Definition stamp_logout (attempt_time : datetime) (l : AccessLog.t) : AccessLog.t :=
  {| AccessLog.username := AccessLog.username l;
     AccessLog.ip_address := AccessLog.ip_address l;
     AccessLog.user_agent := AccessLog.user_agent l;
     AccessLog.http_accept := AccessLog.http_accept l;
     AccessLog.path_info := AccessLog.path_info l;
     AccessLog.attempt_time := AccessLog.attempt_time l;
     AccessLog.trusted := AccessLog.trusted l;
     AccessLog.logout_time := Some attempt_time |}.

Definition AccessLog_update_logout (username : string) (attempt_time : datetime) : M Z :=
  fun w =>
    (Returned (Z.of_nat (List.length (filter (open_session_of username) (access_logs w)))),
     set_access_logs
       (map (fun l => if open_session_of username l then stamp_logout attempt_time l else l)
          (access_logs w)) w).

(** [user_logged_out], called with a user object.  The call with [user=None]
    is [user_logged_out_receiver] below. *)
Definition user_logged_out (attempt_time : datetime) (request : HttpRequest)
  (user : User) : M unit :=
  clean_expired_user_attempts attempt_time ;;;
  let username := get_username user in
  let ip_address := get_client_ip_address request in
  let user_agent := get_client_user_agent request in
  let path_info := get_client_path_info request in
  let client_str := get_client_str username ip_address user_agent path_info in
  log INFO "AXES: Successful logout by %s." [Str client_str] ;;;
  if truthy username && negb (AXES_DISABLE_ACCESS_LOG settings) then
    AccessLog_update_logout username attempt_time ;;;
    ret tt
  else ret tt.

(** [user_logged_out] with the [user] argument as the caller passes it: it
    is dereferenced at [user.get_username()] with no test for [None], so on
    [None] the method raises there, after the sweep and before the log call
    and the session update. *)
Definition no_user_error : Exception :=
  AttributeError "'NoneType' object has no attribute 'get_username'".

Definition user_logged_out_receiver (attempt_time : datetime) (request : HttpRequest)
  (user : option User) : M unit :=
  match user with
  | Some user => user_logged_out attempt_time request user
  | None =>
      clean_expired_user_attempts attempt_time ;;;
      raise no_user_error
  end.

(** ** Running the handler *)

Definition result_of {A : Type} (m : M A) (w : World) : Result A := fst (m w).

Definition world_after {A : Type} (m : M A) (w : World) : World := snd (m w).

Definition handle_failure (e : FailureEvent) : M unit :=
  user_login_failed (ev_time e) (ev_credentials e) (Some (ev_request e)).

Definition event_identity (e : FailureEvent) : Identity :=
  client_identity (ev_request e) (ev_credentials e).

(** The events are handled one after the other; an exception ends the call
    that raised it, not the sequence.  The world after the last call is
    returned with the outcome of every call. *)
Fixpoint handle_failures (events : list FailureEvent) (w : World)
  : list (Result unit) * World :=
  match events with
  | [] => ([], w)
  | e :: rest =>
      let (res, w') := handle_failure e w in
      let (ress, w'') := handle_failures rest w' in
      (res :: ress, w'')
  end.

(** Each event arrives within the cooldown period of the one before it;
    [last_time] is the time of the attempt that precedes the sequence. *)
Fixpoint within_cooldown (last_time : datetime) (events : list FailureEvent) : Prop :=
  match events with
  | [] => True
  | e :: rest =>
      ev_time e - cooldown_period settings <= last_time /\ within_cooldown (ev_time e) rest
  end.

(** ** Pure views of the attempt table, used to state the properties *)

(** The table after the expiry sweep at [attempt_time]. *)
Definition sweep (attempt_time : datetime) (rows : list AccessAttempt.t)
  : list AccessAttempt.t :=
  filter (active attempt_time) rows.

(** The value [get_failures] reads from a table. *)
Definition current_failures (request : HttpRequest) (credentials : Credentials)
  (attempt_time : datetime) (rows : list AccessAttempt.t) : Z :=
  or_0 (Max (filter (get_user_attempts request credentials attempt_time) rows)).

(** The active-window failure count of an identity. *)
Definition failure_count (i : Identity) (attempt_time : datetime)
  (rows : list AccessAttempt.t) : Z :=
  or_0 (Max (filter (fun r => of_identity i r && active attempt_time r) rows)).

(** The lockout signal the handler sends for a request. *)
Definition locked_out_signal (request : HttpRequest) (credentials : Credentials) : LockedOut :=
  {| sender := "axes"; lo_request := request;
     lo_username := get_client_username request credentials;
     lo_ip_address := get_client_ip_address request |}.

Definition locked_out_error : Exception :=
  AxesSignalPermissionDenied "Locked out due to repeated login failures.".

(** The record the handler creates for a first failure, and the assignment
    it applies to the selected records for a repeated one, with the values
    it takes from the request. *)
Definition failure_record (attempt_time : datetime) (credentials : Credentials)
  (request : HttpRequest) (failures_since_start : Z) : AccessAttempt.t :=
  AccessAttempt.create
    (get_client_username request credentials)
    (get_client_ip_address request)
    (get_client_user_agent request)
    (get_query_str (GET request))
    (get_query_str (POST request))
    (get_client_http_accept request)
    (get_client_path_info request)
    failures_since_start attempt_time.

Definition failure_update (attempt_time : datetime) (request : HttpRequest)
  (failures_since_start : Z) : AccessAttempt.t -> AccessAttempt.t :=
  updated
    (get_query_str (GET request))
    (get_query_str (POST request))
    (get_client_http_accept request)
    (get_client_path_info request)
    failures_since_start attempt_time.

(** The attempt table after a tracked failure, from the swept table. *)
Definition record_failure (attempt_time : datetime) (credentials : Credentials)
  (request : HttpRequest) (rows : list AccessAttempt.t) : list AccessAttempt.t :=
  let n := 1 + current_failures request credentials attempt_time rows in
  if 1 <? n then
    update_rows (get_user_attempts request credentials attempt_time)
      (failure_update attempt_time request n) rows
  else rows ++ [failure_record attempt_time credentials request n].

Definition missing_request_error : LogRecord :=
  {| levelname := ERROR;
     msg := "AXES: AxesDatabaseHandler.user_login_failed does not function without a request.";
     args := [] |}.

(** ** Invariants of the attempt table *)

(** No two records are filed under the same identity. *)
Definition one_record_per_identity (rows : list AccessAttempt.t) : Prop :=
  NoDup (map record_identity rows).

(** Every record counts at least one failure. *)
Definition positive_counts (rows : list AccessAttempt.t) : Prop :=
  Forall (fun r => 1 <= AccessAttempt.failures_since_start r) rows.

(** A log record at the error level. *)
Definition is_error (l : LogRecord) : bool :=
  match levelname l with
  | ERROR => true
  | WARNING | INFO => false
  end.

(** The session record a successful login writes. *)
Definition login_record (attempt_time : datetime) (request : HttpRequest) (user : User)
  : AccessLog.t :=
  AccessLog.create (get_username user) (get_client_ip_address request)
    (get_client_user_agent request) (get_client_http_accept request)
    (get_client_path_info request) attempt_time true.

(** * Properties *)

(** ** The aggregate *)

Lemma Max_attained (rows : list AccessAttempt.t) (m : Z) :
  Max rows = Some m ->
  exists r, In r rows /\ AccessAttempt.failures_since_start r = m.
Proof.
  revert m. induction rows as [|r rest IH]; intros m; simpl; [discriminate|].
  destruct (Max rest) as [m'|] eqn:E; intros H; inversion H; subst; clear H.
  - destruct (Z.max_spec (AccessAttempt.failures_since_start r) m') as [[_ Hm]|[_ Hm]].
    + destruct (IH m' eq_refl) as (r' & Hin & Hr'). exists r'. split; [now right | congruence].
    + exists r. split; [now left | congruence].
  - exists r. split; [now left | reflexivity].
Qed.

Lemma Max_upper (rows : list AccessAttempt.t) (r : AccessAttempt.t) :
  In r rows ->
  exists m, Max rows = Some m /\ AccessAttempt.failures_since_start r <= m.
Proof.
  induction rows as [|x rest IH]; simpl; [contradiction|].
  intros [->|Hin].
  - destruct (Max rest) as [m'|]; eexists; split; try reflexivity; lia.
  - destruct (IH Hin) as (m' & -> & Hle). eexists; split; [reflexivity | lia].
Qed.

Lemma or_0_id (x : option Z) : or_0 x = match x with None => 0 | Some v => v end.
Proof.
  destruct x as [v|]; simpl; [|reflexivity].
  destruct (Z.eqb_spec v 0); congruence.
Qed.

(** ** Filters *)

Lemma filter_comm {A : Type} (p q : A -> bool) (l : list A) :
  filter p (filter q l) = filter q (filter p l).
Proof.
  induction l as [|a l IH]; simpl; [reflexivity|].
  destruct (p a) eqn:P, (q a) eqn:Q; simpl; rewrite ?P, ?Q, IH; reflexivity.
Qed.

Lemma filter_and {A : Type} (p q : A -> bool) (l : list A) :
  filter (fun a => p a && q a) l = filter p (filter q l).
Proof.
  induction l as [|a l IH]; simpl; [reflexivity|].
  destruct (p a) eqn:P, (q a) eqn:Q; simpl; rewrite ?P, ?Q, IH; reflexivity.
Qed.

Lemma filter_idem {A : Type} (p : A -> bool) (l : list A) :
  filter p (filter p l) = filter p l.
Proof.
  induction l as [|a l IH]; simpl; [reflexivity|].
  destruct (p a) eqn:P; simpl; rewrite ?P, IH; reflexivity.
Qed.

Lemma filter_none {A : Type} (p : A -> bool) (l : list A) :
  Forall (fun a => p a = false) l -> filter p l = [].
Proof.
  induction 1 as [|a l Ha _ IH]; simpl; [reflexivity|]. now rewrite Ha, IH.
Qed.

Lemma filter_map_stable {A : Type} (p : A -> bool) (f : A -> A) (l : list A) :
  (forall a, In a l -> p (f a) = p a) ->
  filter p (map f l) = map f (filter p l).
Proof.
  induction l as [|a l IH]; simpl; intros H; [reflexivity|].
  rewrite (H a) by now left.
  destruct (p a); simpl; rewrite IH; auto.
Qed.

Lemma sweep_active (t : datetime) (rows : list AccessAttempt.t) :
  Forall (fun r => active t r = true) (sweep t rows).
Proof. apply Forall_forall. intros r Hin. now apply filter_In in Hin. Qed.

Lemma sweep_incl (t : datetime) (rows : list AccessAttempt.t) (r : AccessAttempt.t) :
  In r (sweep t rows) -> In r rows.
Proof. intros Hin. now apply filter_In in Hin. Qed.

Lemma get_user_attempts_sweep (t : datetime) (c : Credentials) (r : HttpRequest)
  (rows : list AccessAttempt.t) :
  filter (get_user_attempts r c t) (sweep t rows) = filter (get_user_attempts r c t) rows.
Proof.
  unfold sweep, get_user_attempts.
  rewrite !filter_and. f_equal. apply filter_idem.
Qed.

Lemma current_failures_sweep (t : datetime) (c : Credentials) (r : HttpRequest)
  (rows : list AccessAttempt.t) :
  current_failures r c t (sweep t rows) = current_failures r c t rows.
Proof. unfold current_failures. now rewrite get_user_attempts_sweep. Qed.

(** ** What one call does to the world *)

(** Runs the monadic steps whose outcome is known, leaving the arithmetic
    and the table operations folded. *)
Ltac run_handler :=
  cbv beta iota delta
    [bind ret raise log user_locked_out_send aggregate_Max update delete
     AccessAttempt_objects_create AccessLog_objects_create AccessLog_update_logout
     clean_expired_user_attempts reset_user_attempts get_failures
     set_attempts set_access_logs];
  cbn [fst snd attempts access_logs logged user_locked_out].

Lemma get_failures_run (t : datetime) (c : Credentials) (r : HttpRequest) (w : World) :
  get_failures r c t w = (Returned (current_failures r c t (attempts w)), w).
Proof. reflexivity. Qed.

Lemma user_login_failed_no_request (t : datetime) (c : Credentials) (w : World) :
  user_login_failed t c None w =
  (Returned tt,
   {| attempts := sweep t (attempts w);
      access_logs := access_logs w;
      logged := logged w ++ [missing_request_error];
      user_locked_out := user_locked_out w |}).
Proof. reflexivity. Qed.

Lemma user_login_failed_whitelisted (t : datetime) (c : Credentials) (r : HttpRequest)
  (w : World) :
  is_whitelisted r c = true ->
  user_login_failed t c (Some r) w =
  (Returned tt,
   {| attempts := sweep t (attempts w);
      access_logs := access_logs w;
      logged := logged w ++
        [{| levelname := INFO;
            msg := "AXES: Login failed from whitelisted client %s.";
            args := [Str (get_client_str (get_client_username r c)
                            (get_client_ip_address r) (get_client_user_agent r)
                            (get_client_path_info r))] |}];
      user_locked_out := user_locked_out w |}).
Proof.
  intros Hw. unfold user_login_failed. run_handler. rewrite Hw. reflexivity.
Qed.

Lemma user_login_failed_tracked (t : datetime) (c : Credentials) (r : HttpRequest)
  (w : World) :
  is_whitelisted r c = false ->
  let n := 1 + current_failures r c t (sweep t (attempts w)) in
  result_of (user_login_failed t c (Some r)) w =
    (if AXES_FAILURE_LIMIT settings <=? n then Raised locked_out_error else Returned tt) /\
  attempts (world_after (user_login_failed t c (Some r)) w) =
    record_failure t c r (sweep t (attempts w)) /\
  access_logs (world_after (user_login_failed t c (Some r)) w) = access_logs w /\
  user_locked_out (world_after (user_login_failed t c (Some r)) w) =
    user_locked_out w ++ (if AXES_FAILURE_LIMIT settings <=? n then [locked_out_signal r c] else []).
Proof.
  intros Hw n. unfold result_of, world_after, user_login_failed.
  run_handler. rewrite Hw. run_handler.
  unfold record_failure.
  change (filter (fun x => negb (expired t x)) (attempts w)) with (sweep t (attempts w)).
  change (or_0 (Max (filter (get_user_attempts r c t) (sweep t (attempts w)))))
    with (current_failures r c t (sweep t (attempts w))).
  fold n.
  destruct (1 <? n) eqn:E1; run_handler;
    destruct (AXES_FAILURE_LIMIT settings <=? n) eqn:E2; run_handler;
    rewrite ?app_nil_r; repeat split; reflexivity.
Qed.

(** ** Identities *)

Lemma key_eqb_eq (a b : option string) : key_eqb a b = true <-> a = b.
Proof.
  destruct a as [x|], b as [y|]; simpl; split; intros H;
    try discriminate; try reflexivity.
  - apply String.eqb_eq in H. now subst.
  - inversion H. apply String.eqb_refl.
Qed.

Lemma identity_eqb_eq (a b : Identity) : identity_eqb a b = true <-> a = b.
Proof.
  unfold identity_eqb. rewrite !andb_true_iff, !key_eqb_eq.
  destruct a, b; simpl. split.
  - intros [[[-> ->] ->] ->]. reflexivity.
  - intros H. inversion H. auto.
Qed.

Lemma of_identity_true (i : Identity) (r : AccessAttempt.t) :
  of_identity i r = true <-> record_identity r = i.
Proof. apply identity_eqb_eq. Qed.

Lemma record_identity_failure_record (t : datetime) (c : Credentials) (r : HttpRequest)
  (n : Z) :
  record_identity (failure_record t c r n) = client_identity r c.
Proof. reflexivity. Qed.

(** The assignment of the update leaves a record under the identity of the
    client that caused it: the three identity columns are not written and
    the path written is the client's own. *)
Lemma record_identity_failure_update (t : datetime) (c : Credentials) (r : HttpRequest)
  (n : Z) (row : AccessAttempt.t) :
  record_identity row = client_identity r c ->
  record_identity (failure_update t r n row) = client_identity r c.
Proof.
  unfold record_identity, client_identity, make_identity. simpl.
  intros H. inversion H as [[H1 H2 H3 H4]]. reflexivity.
Qed.

Lemma update_keeps_identity (t : datetime) (c : Credentials) (r : HttpRequest)
  (n : Z) (row : AccessAttempt.t) :
  of_identity (client_identity r c)
    (if get_user_attempts r c t row then failure_update t r n row else row) =
  of_identity (client_identity r c) row.
Proof.
  unfold get_user_attempts.
  destruct (of_identity (client_identity r c) row) eqn:E; simpl; [|exact E].
  destruct (active t row); [|exact E].
  apply of_identity_true. apply record_identity_failure_update.
  now apply of_identity_true.
Qed.

(** ** The failure path without a request *)

(** C8: a call of [user_login_failed] without a request logs an error and
    returns normally; it raises nothing, sends no lockout signal, and every
    attempt record in the table afterwards was already there, unchanged (no
    record is created and no failure count is updated). *)
Theorem user_login_failed_without_request_is_soft_noop
  (t : datetime) (c : Credentials) (w : World) :
  let w' := world_after (user_login_failed t c None) w in
  result_of (user_login_failed t c None) w = Returned tt /\
  logged w' = logged w ++ [missing_request_error] /\
  incl (attempts w') (attempts w) /\
  (List.length (attempts w') <= List.length (attempts w))%nat /\
  access_logs w' = access_logs w /\
  user_locked_out w' = user_locked_out w.
Proof.
  unfold result_of, world_after. rewrite user_login_failed_no_request. simpl.
  repeat split; try reflexivity.
  - intros r Hin. eapply sweep_incl, Hin.
  - apply filter_length_le.
Qed.

(** C10: the expiry sweep runs before the missing-request check.  A call
    without a request leaves exactly the swept table, in which no expired
    record remains; so when the table holds an expired record the call
    removes it and the table is not what it was. *)
Theorem user_login_failed_without_request_still_sweeps
  (t : datetime) (c : Credentials) (w : World) :
  let w' := world_after (user_login_failed t c None) w in
  result_of (user_login_failed t c None) w = Returned tt /\
  attempts w' = sweep t (attempts w) /\
  Forall (fun r => expired t r = false) (attempts w') /\
  (forall r, In r (attempts w) -> expired t r = true ->
     ~ In r (attempts w') /\ attempts w' <> attempts w).
Proof.
  unfold result_of, world_after. rewrite user_login_failed_no_request. simpl.
  assert (Hall : Forall (fun r => expired t r = false) (sweep t (attempts w))).
  { eapply Forall_impl; [|apply sweep_active].
    intros r Hr. unfold active in Hr. now apply negb_true_iff in Hr. }
  split; [reflexivity|]. split; [reflexivity|]. split; [exact Hall|].
  intros r Hin Hexp. rewrite Forall_forall in Hall. split.
  - intros Hin'. apply Hall in Hin'. congruence.
  - intros Heq. rewrite Heq in Hall. specialize (Hall r Hin). congruence.
Qed.

(** ** The whitelist *)

(** C4, as the code has it: the two paths consult two different whitelist
    checks.  When the handler's whitelist check accepts the client, a failed
    login returns normally with the table exactly as the sweep left it (no
    record created or updated) and no lockout signal; and when the
    user-attempt whitelist check of [is_locked] accepts the client,
    [is_locked] answers false whatever the table holds. *)
Theorem whitelisted_client_is_never_locked_out
  (t : datetime) (o : option datetime) (c : Credentials) (r : HttpRequest) (w : World) :
  (is_whitelisted r c = true ->
     let w' := world_after (user_login_failed t c (Some r)) w in
     result_of (user_login_failed t c (Some r)) w = Returned tt /\
     attempts w' = sweep t (attempts w) /\
     incl (attempts w') (attempts w) /\
     user_locked_out w' = user_locked_out w) /\
  (is_user_attempt_whitelisted r c = true ->
     result_of (is_locked r c o) w = Returned false /\
     world_after (is_locked r c o) w = w).
Proof.
  split.
  - intros Hw. unfold result_of, world_after.
    rewrite (user_login_failed_whitelisted t c r w Hw). simpl.
    repeat split. intros x Hin. eapply sweep_incl, Hin.
  - intros Hw. unfold result_of, world_after, is_locked. rewrite Hw. split; reflexivity.
Qed.

(** ** The threshold *)

Lemma record_failure_persists (t : datetime) (c : Credentials) (r : HttpRequest)
  (rows : list AccessAttempt.t) :
  exists row,
    In row (record_failure t c r rows) /\
    record_identity row = client_identity r c /\
    AccessAttempt.failures_since_start row = 1 + current_failures r c t rows /\
    AccessAttempt.attempt_time row = t.
Proof.
  unfold record_failure.
  destruct (1 <? 1 + current_failures r c t rows) eqn:E.
  - apply Z.ltb_lt in E. unfold current_failures in *.
    destruct (Max (filter (get_user_attempts r c t) rows)) as [m|] eqn:HM;
      [|simpl in E; lia].
    destruct (Max_attained _ _ HM) as (row & Hin & _).
    apply filter_In in Hin. destruct Hin as [Hin Hq].
    exists (failure_update t r (1 + or_0 (Some m)) row).
    split; [|split; [|split; reflexivity]].
    + unfold update_rows. apply in_map_iff. exists row. rewrite Hq. auto.
    + apply record_identity_failure_update. apply of_identity_true.
      unfold get_user_attempts in Hq. now apply andb_true_iff in Hq.
  - eexists. split; [apply in_or_app; right; left; reflexivity|].
    split; [apply record_identity_failure_record|]. split; reflexivity.
Qed.

(** C1: for a failed login with a request that the whitelist does not
    accept, the new count (one more than the count read after the sweep) is
    stored in a record of the client's identity, stamped with the attempt
    time; if the new count has
    reached the failure limit the handler sends the lockout signal with the
    request, the user name and the address and raises, otherwise it returns
    normally and sends nothing. *)
Theorem user_login_failed_locks_out_at_limit
  (t : datetime) (c : Credentials) (r : HttpRequest) (w : World) :
  is_whitelisted r c = false ->
  let new_count := 1 + current_failures r c t (sweep t (attempts w)) in
  let w' := world_after (user_login_failed t c (Some r)) w in
  (exists row, In row (attempts w') /\
     record_identity row = client_identity r c /\
     AccessAttempt.failures_since_start row = new_count /\
     AccessAttempt.attempt_time row = t) /\
  (AXES_FAILURE_LIMIT settings <= new_count ->
     result_of (user_login_failed t c (Some r)) w = Raised locked_out_error /\
     user_locked_out w' = user_locked_out w ++ [locked_out_signal r c]) /\
  (new_count < AXES_FAILURE_LIMIT settings ->
     result_of (user_login_failed t c (Some r)) w = Returned tt /\
     user_locked_out w' = user_locked_out w).
Proof.
  intros Hw new_count w'.
  destruct (user_login_failed_tracked t c r w Hw) as (Hres & Hrows & _ & Hsig).
  fold new_count in Hres, Hsig. fold w' in Hrows, Hsig.
  split; [|split].
  - rewrite Hrows. apply record_failure_persists.
  - intros Hge. apply Z.leb_le in Hge. rewrite Hge in Hres, Hsig. now split.
  - intros Hlt. apply Z.leb_gt in Hlt. rewrite Hlt in Hres, Hsig.
    rewrite app_nil_r in Hsig. now split.
Qed.

(** ** The update of an existing record *)

Lemma Forall2_map_cases {A : Type} (q : A -> bool) (f : A -> A) (R : A -> A -> Prop)
  (l : list A) :
  (forall a, q a = true -> R a (f a)) ->
  (forall a, q a = false -> R a a) ->
  Forall2 R l (map (fun a => if q a then f a else a) l).
Proof.
  intros Hf Hid. induction l as [|a l IH]; simpl; constructor; [|exact IH].
  destruct (q a) eqn:E; auto.
Qed.

(** C6, as the code has it: a failed login that finds an active record of
    the client (so that the new count is above 1) rewrites the swept table
    row by row.  A selected record keeps its user name, address and user
    agent; its failure count and attempt time are replaced, the request's
    GET and POST data are appended after the separator, and its accept
    header and path are replaced by those of the request.  A record that is
    not selected is not touched, and no record is added or removed. *)
Theorem repeated_failure_keeps_identity_columns
  (t : datetime) (c : Credentials) (r : HttpRequest) (w : World) :
  is_whitelisted r c = false ->
  1 <= current_failures r c t (sweep t (attempts w)) ->
  let new_count := 1 + current_failures r c t (sweep t (attempts w)) in
  let w' := world_after (user_login_failed t c (Some r)) w in
  Forall2
    (fun old new =>
       if get_user_attempts r c t old then
         AccessAttempt.username new = AccessAttempt.username old /\
         AccessAttempt.ip_address new = AccessAttempt.ip_address old /\
         AccessAttempt.user_agent new = AccessAttempt.user_agent old /\
         AccessAttempt.failures_since_start new = new_count /\
         AccessAttempt.attempt_time new = t /\
         AccessAttempt.get_data new =
           (AccessAttempt.get_data old ++ separator ++ get_query_str (GET r))%string /\
         AccessAttempt.post_data new =
           (AccessAttempt.post_data old ++ separator ++ get_query_str (POST r))%string /\
         AccessAttempt.http_accept new = get_client_http_accept r /\
         AccessAttempt.path_info new = get_client_path_info r
       else new = old)
    (sweep t (attempts w)) (attempts w') /\
  exists old, In old (sweep t (attempts w)) /\ get_user_attempts r c t old = true.
Proof.
  intros Hw Hge new_count w'.
  destruct (user_login_failed_tracked t c r w Hw) as (_ & Hrows & _).
  fold w' in Hrows. rewrite Hrows. unfold record_failure. fold new_count.
  replace (1 <? new_count) with true by (symmetry; apply Z.ltb_lt; unfold new_count; lia).
  split.
  - unfold update_rows.
    apply (Forall2_map_cases (get_user_attempts r c t)
             (failure_update t r new_count)
             (fun old new => if get_user_attempts r c t old then _ else new = old)).
    + intros a Ha. rewrite Ha. simpl. repeat split; reflexivity.
    + intros a Ha. rewrite Ha. reflexivity.
  - unfold current_failures in Hge.
    destruct (Max (filter (get_user_attempts r c t) (sweep t (attempts w)))) as [m|] eqn:HM;
      [|simpl in Hge; lia].
    destruct (Max_attained _ _ HM) as (row & Hin & _).
    apply filter_In in Hin. exists row. exact Hin.
Qed.

(** ** Logout *)

(** C9, as the code has it: a logout returns normally and never touches the
    attempt table beyond the sweep.  When the user name is not empty and
    access logging is not disabled, every open session of that user name
    (every access log without a logout time), not only the latest, gets the
    logout time and keeps its other columns; sessions of other user names
    and closed sessions are not touched.  When the user name is empty or
    access logging is disabled the access log is left as it was. *)
Theorem user_logged_out_stamps_every_open_session
  (t : datetime) (request : HttpRequest) (user : User) (w : World) :
  let username := get_username user in
  let w' := world_after (user_logged_out t request user) w in
  result_of (user_logged_out t request user) w = Returned tt /\
  attempts w' = sweep t (attempts w) /\
  (truthy username = true -> AXES_DISABLE_ACCESS_LOG settings = false ->
     Forall2
       (fun old new =>
          if String.eqb (AccessLog.username old) username
             && match AccessLog.logout_time old with None => true | Some _ => false end
          then
            AccessLog.logout_time new = Some t /\
            AccessLog.username new = AccessLog.username old /\
            AccessLog.ip_address new = AccessLog.ip_address old /\
            AccessLog.user_agent new = AccessLog.user_agent old /\
            AccessLog.http_accept new = AccessLog.http_accept old /\
            AccessLog.path_info new = AccessLog.path_info old /\
            AccessLog.attempt_time new = AccessLog.attempt_time old /\
            AccessLog.trusted new = AccessLog.trusted old
          else new = old)
       (access_logs w) (access_logs w')) /\
  (truthy username = false \/ AXES_DISABLE_ACCESS_LOG settings = true ->
     access_logs w' = access_logs w).
Proof.
  intros username w'. subst w'. unfold result_of, world_after, user_logged_out.
  fold username. run_handler.
  destruct (truthy username) eqn:Hu, (AXES_DISABLE_ACCESS_LOG settings) eqn:Hd;
    run_handler; cbn [andb negb]; run_handler;
    (split; [reflexivity|]); (split; [reflexivity|]); split;
    try discriminate; try reflexivity; try (intros [?|?]; discriminate).
  intros _ _.
  change (fun l => if open_session_of username l then stamp_logout t l else l)
    with (fun l => if (fun x => open_session_of username x) l then stamp_logout t l else l).
  apply (Forall2_map_cases (open_session_of username) (stamp_logout t)
           (fun old new => if open_session_of username old then _ else new = old)).
  - intros a Ha. rewrite Ha. simpl. repeat split; reflexivity.
  - intros a Ha. rewrite Ha. reflexivity.
Qed.

(** ** A first failure and a repeated failure *)

Lemma active_iff (t : datetime) (row : AccessAttempt.t) :
  active t row = true <-> t - cooldown_period settings <= AccessAttempt.attempt_time row.
Proof.
  unfold active, expired. rewrite negb_true_iff, Z.ltb_ge. reflexivity.
Qed.

Lemma filter_negb {A : Type} (p : A -> bool) (l : list A) :
  filter p (filter (fun a => negb (p a)) l) = [].
Proof.
  apply filter_none, Forall_forall. intros a Hin.
  apply filter_In in Hin. destruct Hin as [_ Hn]. now apply negb_true_iff in Hn.
Qed.

Lemma identity_rows_of_sweep (i : Identity) (t : datetime) (rows : list AccessAttempt.t) :
  filter (of_identity i) (sweep t rows) =
  filter (fun r => of_identity i r && active t r) rows.
Proof. unfold sweep. now rewrite filter_and. Qed.

Lemma record_failure_fresh (t : datetime) (c : Credentials) (r : HttpRequest)
  (rows : list AccessAttempt.t) :
  filter (get_user_attempts r c t) rows = [] ->
  record_failure t c r rows = rows ++ [failure_record t c r 1].
Proof.
  unfold record_failure, current_failures. intros ->. reflexivity.
Qed.

Lemma record_failure_single (t : datetime) (c : Credentials) (r : HttpRequest)
  (rows : list AccessAttempt.t) (row : AccessAttempt.t) :
  filter (get_user_attempts r c t) rows = [row] ->
  1 <= AccessAttempt.failures_since_start row ->
  record_failure t c r rows =
  update_rows (get_user_attempts r c t)
    (failure_update t r (1 + AccessAttempt.failures_since_start row)) rows.
Proof.
  unfold record_failure, current_failures. intros -> Hge.
  cbn [Max]. rewrite or_0_id.
  replace (1 <? 1 + AccessAttempt.failures_since_start row) with true
    by (symmetry; apply Z.ltb_lt; lia).
  reflexivity.
Qed.

Lemma identity_rows_after_update (t : datetime) (c : Credentials) (r : HttpRequest)
  (n : Z) (rows : list AccessAttempt.t) :
  filter (of_identity (client_identity r c))
    (update_rows (get_user_attempts r c t) (failure_update t r n) rows) =
  map (fun row => if get_user_attempts r c t row then failure_update t r n row else row)
    (filter (of_identity (client_identity r c)) rows).
Proof.
  unfold update_rows. apply filter_map_stable. intros row _. apply update_keeps_identity.
Qed.

(** A tracked failure of a client with no active record: the sweep, then a
    new record with count 1, the only one of the identity. *)
Lemma fresh_failure (t : datetime) (c : Credentials) (r : HttpRequest) (w : World) :
  is_whitelisted r c = false ->
  filter (fun x => of_identity (client_identity r c) x && active t x) (attempts w) = [] ->
  let w' := world_after (user_login_failed t c (Some r)) w in
  result_of (user_login_failed t c (Some r)) w =
    (if AXES_FAILURE_LIMIT settings <=? 1 then Raised locked_out_error else Returned tt) /\
  attempts w' = sweep t (attempts w) ++ [failure_record t c r 1] /\
  filter (of_identity (client_identity r c)) (attempts w') = [failure_record t c r 1].
Proof.
  intros Hw Hnone w'.
  destruct (user_login_failed_tracked t c r w Hw) as (Hres & Hrows & _).
  fold w' in Hrows.
  assert (Hq : filter (get_user_attempts r c t) (sweep t (attempts w)) = []).
  { rewrite get_user_attempts_sweep. exact Hnone. }
  rewrite (record_failure_fresh _ _ _ _ Hq) in Hrows.
  unfold current_failures in Hres. rewrite Hq in Hres. cbn [Max or_0] in Hres.
  split; [exact Hres|]. split; [exact Hrows|].
  rewrite Hrows, filter_app, identity_rows_of_sweep, Hnone. cbn [filter app].
  replace (of_identity (client_identity r c) (failure_record t c r 1)) with true;
    [reflexivity|].
  symmetry. apply of_identity_true. apply record_identity_failure_record.
Qed.

(** A tracked failure of a client whose identity has one record, still
    active: that record is updated in place to one more failure. *)
Lemma repeated_failure (t : datetime) (c : Credentials) (r : HttpRequest) (w : World)
  (row : AccessAttempt.t) :
  is_whitelisted r c = false ->
  filter (of_identity (client_identity r c)) (attempts w) = [row] ->
  t - cooldown_period settings <= AccessAttempt.attempt_time row ->
  1 <= AccessAttempt.failures_since_start row ->
  let n := 1 + AccessAttempt.failures_since_start row in
  let w' := world_after (user_login_failed t c (Some r)) w in
  result_of (user_login_failed t c (Some r)) w =
    (if AXES_FAILURE_LIMIT settings <=? n then Raised locked_out_error else Returned tt) /\
  filter (of_identity (client_identity r c)) (attempts w') = [failure_update t r n row].
Proof.
  intros Hw Hone Htime Hge n w'.
  destruct (user_login_failed_tracked t c r w Hw) as (Hres & Hrows & _).
  fold w' in Hrows.
  assert (Hact : active t row = true) by now apply active_iff.
  assert (Hid : filter (of_identity (client_identity r c)) (sweep t (attempts w)) = [row]).
  { unfold sweep. rewrite filter_comm, Hone. cbn [filter]. now rewrite Hact. }
  assert (Hq : filter (get_user_attempts r c t) (sweep t (attempts w)) = [row]).
  { unfold get_user_attempts. rewrite filter_and. unfold sweep.
    rewrite filter_idem. exact Hid. }
  unfold current_failures in Hres. rewrite Hq in Hres. cbn [Max] in Hres.
  rewrite or_0_id in Hres. fold n in Hres.
  split; [exact Hres|].
  rewrite Hrows, (record_failure_single _ _ _ _ _ Hq Hge). fold n.
  rewrite identity_rows_after_update, Hid. cbn [map].
  assert (Hsel : get_user_attempts r c t row = true).
  { assert (Hin : In row (filter (get_user_attempts r c t) (sweep t (attempts w))))
      by (rewrite Hq; now left).
    now apply filter_In in Hin. }
  now rewrite Hsel.
Qed.

(** ** Sequences of failures *)

(** Reads a column of a record the handler has just written. *)
Ltac read_columns :=
  cbn [failure_update updated failure_record
       AccessAttempt.username AccessAttempt.ip_address AccessAttempt.user_agent
       AccessAttempt.get_data AccessAttempt.post_data AccessAttempt.http_accept
       AccessAttempt.path_info AccessAttempt.failures_since_start
       AccessAttempt.attempt_time] in *.

Lemma handle_failures_cons (e : FailureEvent) (rest : list FailureEvent) (w : World) :
  handle_failures (e :: rest) w =
  (result_of (handle_failure e) w
     :: fst (handle_failures rest (world_after (handle_failure e) w)),
   snd (handle_failures rest (world_after (handle_failure e) w))).
Proof.
  unfold result_of, world_after. cbn [handle_failures].
  destruct (handle_failure e w) as [res w1]. cbn [fst snd].
  destruct (handle_failures rest w1) as [ress w2]. reflexivity.
Qed.

Lemma last_cons {A : Type} (a d : A) (l : list A) : last (a :: l) d = last l a.
Proof.
  revert a d. induction l as [|b l IH]; intros a d; [reflexivity|].
  change (last (a :: b :: l) d) with (last (b :: l) d).
  now rewrite (IH b d), (IH b a).
Qed.

Lemma failures_accumulate (i : Identity) (events : list FailureEvent) :
  forall (w : World) (row : AccessAttempt.t),
  Forall (fun e => event_identity e = i) events ->
  Forall (fun e => is_whitelisted (ev_request e) (ev_credentials e) = false) events ->
  filter (of_identity i) (attempts w) = [row] ->
  1 <= AccessAttempt.failures_since_start row ->
  within_cooldown (AccessAttempt.attempt_time row) events ->
  AccessAttempt.failures_since_start row + Z.of_nat (List.length events)
    < AXES_FAILURE_LIMIT settings ->
  Forall (fun res => res = Returned tt) (fst (handle_failures events w)) /\
  exists row',
    filter (of_identity i) (attempts (snd (handle_failures events w))) = [row'] /\
    AccessAttempt.failures_since_start row' =
      AccessAttempt.failures_since_start row + Z.of_nat (List.length events) /\
    AccessAttempt.attempt_time row' =
      last (map ev_time events) (AccessAttempt.attempt_time row) /\
    AccessAttempt.username row' = AccessAttempt.username row /\
    AccessAttempt.ip_address row' = AccessAttempt.ip_address row /\
    AccessAttempt.user_agent row' = AccessAttempt.user_agent row.
Proof.
  induction events as [|e rest IH]; intros w row Hid Hwl Hone Hge Hcool Hlim.
  - cbn. split; [constructor|]. exists row. rewrite Z.add_0_r. auto 10.
  - inversion Hid as [|? ? Hide Hidr]; subst.
    inversion Hwl as [|? ? Hwle Hwlr]; subst.
    destruct Hcool as [Hnow Hcool].
    rewrite handle_failures_cons. cbn [fst snd].
    unfold event_identity in Hone.
    destruct (repeated_failure (ev_time e) (ev_credentials e) (ev_request e) w row
                Hwle Hone Hnow Hge) as [Hres Hrow].
    fold (handle_failure e) in Hres, Hrow.
    set (row1 := failure_update (ev_time e) (ev_request e)
                   (1 + AccessAttempt.failures_since_start row) row) in *.
    change (List.length (e :: rest)) with (S (List.length rest)) in *.
    rewrite Nat2Z.inj_succ in *.
    destruct (IH (world_after (handle_failure e) w) row1 Hidr Hwlr Hrow)
      as [Hall (row' & Hrow' & Hcount & Htime & Hu & Ha & Hg)].
    + subst row1. read_columns. lia.
    + exact Hcool.
    + subst row1. read_columns. lia.
    + subst row1. read_columns. split.
      * constructor; [|exact Hall].
        rewrite Hres.
        replace (AXES_FAILURE_LIMIT settings <=? 1 + AccessAttempt.failures_since_start row)
          with false; [reflexivity|].
        symmetry. apply Z.leb_gt. lia.
      * exists row'. split; [exact Hrow'|].
        split; [rewrite Hcount; lia|].
        split; [rewrite Htime; cbn [map]; now rewrite last_cons|].
        auto.
Qed.

(** C3, as the code has it: take one or more failed logins of one identity,
    fewer than the failure limit, none accepted by the whitelist, each
    within the cooldown period of the one before, handled one after the
    other from a table with no active record of that identity.  Every call
    returns normally, and afterwards exactly one record is filed under the
    identity: its failure count is the number of failures, its attempt time
    is that of the last one, and its user name, address and user agent are
    those of the first. *)
Theorem consecutive_failures_are_counted_on_one_record
  (i : Identity) (e : FailureEvent) (events : list FailureEvent) (w : World) :
  Forall (fun x => event_identity x = i) (e :: events) ->
  Forall (fun x => is_whitelisted (ev_request x) (ev_credentials x) = false)
    (e :: events) ->
  within_cooldown (ev_time e) events ->
  filter (fun r => of_identity i r && active (ev_time e) r) (attempts w) = [] ->
  Z.of_nat (List.length (e :: events)) < AXES_FAILURE_LIMIT settings ->
  Forall (fun res => res = Returned tt) (fst (handle_failures (e :: events) w)) /\
  exists row,
    filter (of_identity i) (attempts (snd (handle_failures (e :: events) w))) = [row] /\
    AccessAttempt.failures_since_start row = Z.of_nat (List.length (e :: events)) /\
    AccessAttempt.attempt_time row = last (map ev_time events) (ev_time e) /\
    AccessAttempt.username row = get_client_username (ev_request e) (ev_credentials e) /\
    AccessAttempt.ip_address row = get_client_ip_address (ev_request e) /\
    AccessAttempt.user_agent row = get_client_user_agent (ev_request e).
Proof.
  intros Hid Hwl Hcool Hnone Hlim.
  inversion Hid as [|? ? Hide Hidr]; subst.
  inversion Hwl as [|? ? Hwle Hwlr]; subst.
  change (List.length (e :: events)) with (S (List.length events)) in *.
  rewrite Nat2Z.inj_succ in *.
  rewrite handle_failures_cons. cbn [fst snd].
  unfold event_identity in Hnone.
  destruct (fresh_failure (ev_time e) (ev_credentials e) (ev_request e) w Hwle Hnone)
    as (Hres & _ & Hrow).
  fold (handle_failure e) in Hres, Hrow. fold (event_identity e) in Hrow.
  set (row1 := failure_record (ev_time e) (ev_credentials e) (ev_request e) 1) in *.
  destruct (failures_accumulate (event_identity e) events
              (world_after (handle_failure e) w) row1 Hidr Hwlr Hrow)
    as [Hall (row' & Hrow' & Hcount & Htime & Hu & Ha & Hg)].
  - subst row1. read_columns. lia.
  - exact Hcool.
  - subst row1. read_columns. lia.
  - subst row1. read_columns. split.
    + constructor; [|exact Hall]. rewrite Hres.
      replace (AXES_FAILURE_LIMIT settings <=? 1) with false; [reflexivity|].
      symmetry. apply Z.leb_gt. lia.
    + exists row'. split; [exact Hrow'|].
      split; [rewrite Hcount; lia|].
      auto.
Qed.

(** ** Lockout persists *)

(** One tracked failure of an identity whose active-window count has reached
    the limit: the call raises and sends the signal, and the count stays at
    or above the limit at every time within the cooldown of this attempt. *)
Lemma locked_out_step (t : datetime) (c : Credentials) (r : HttpRequest) (w : World) :
  is_whitelisted r c = false ->
  AXES_FAILURE_LIMIT settings <= failure_count (client_identity r c) t (attempts w) ->
  let w' := world_after (user_login_failed t c (Some r)) w in
  result_of (user_login_failed t c (Some r)) w = Raised locked_out_error /\
  user_locked_out w' = user_locked_out w ++ [locked_out_signal r c] /\
  forall t', t' - cooldown_period settings <= t ->
    AXES_FAILURE_LIMIT settings <= failure_count (client_identity r c) t' (attempts w').
Proof.
  intros Hw Hlocked w'.
  destruct (user_login_failed_tracked t c r w Hw) as (Hres & Hrows & _ & Hsig).
  fold w' in Hrows, Hsig.
  change (failure_count (client_identity r c) t (attempts w))
    with (current_failures r c t (attempts w)) in Hlocked.
  rewrite <- (current_failures_sweep t c r (attempts w)) in Hlocked.
  assert (Hlim : (AXES_FAILURE_LIMIT settings <=?
                  1 + current_failures r c t (sweep t (attempts w))) = true)
    by (apply Z.leb_le; lia).
  rewrite Hlim in Hres, Hsig.
  split; [exact Hres|]. split; [exact Hsig|].
  intros t' Ht'.
  destruct (record_failure_persists t c r (sweep t (attempts w)))
    as (new & Hin & Hid & Hcount & Htime).
  rewrite <- Hrows in Hin.
  assert (Hnew : In new (filter (fun x => of_identity (client_identity r c) x && active t' x)
                           (attempts w'))).
  { apply filter_In. split; [exact Hin|].
    apply andb_true_iff. split.
    - now apply of_identity_true.
    - apply active_iff. now rewrite Htime. }
  destruct (Max_upper _ _ Hnew) as (m & HM & Hle).
  unfold failure_count. rewrite HM, or_0_id. lia.
Qed.

Lemma lockout_persists (i : Identity) (events : list FailureEvent) :
  forall (e : FailureEvent) (w : World),
  Forall (fun x => event_identity x = i) (e :: events) ->
  Forall (fun x => is_whitelisted (ev_request x) (ev_credentials x) = false)
    (e :: events) ->
  AXES_FAILURE_LIMIT settings <= failure_count i (ev_time e) (attempts w) ->
  within_cooldown (ev_time e) events ->
  let w' := snd (handle_failures (e :: events) w) in
  Forall (fun res => res = Raised locked_out_error)
    (fst (handle_failures (e :: events) w)) /\
  user_locked_out w' =
    user_locked_out w ++
    map (fun x => locked_out_signal (ev_request x) (ev_credentials x)) (e :: events) /\
  forall t', t' - cooldown_period settings <= last (map ev_time events) (ev_time e) ->
    AXES_FAILURE_LIMIT settings <= failure_count i t' (attempts w').
Proof.
  induction events as [|e' rest IH]; intros e w Hid Hwl Hlocked Hcool w';
    subst w'; rewrite handle_failures_cons; cbn [fst snd];
    inversion Hid as [|? ? Hide Hidr]; subst;
    inversion Hwl as [|? ? Hwle Hwlr]; subst;
    unfold event_identity in Hlocked;
    destruct (locked_out_step (ev_time e) (ev_credentials e) (ev_request e) w
                Hwle Hlocked) as (Hres & Hsig & Hkeep);
    fold (handle_failure e) in Hres, Hsig, Hkeep; fold (event_identity e) in Hkeep.
  - cbn [handle_failures fst snd map last]. repeat split.
    + constructor; [exact Hres | constructor].
    + exact Hsig.
    + exact Hkeep.
  - destruct Hcool as [Hnext Hcool].
    destruct (IH e' (world_after (handle_failure e) w)) as (Hall & Hsigs & Hlast).
    + exact Hidr.
    + exact Hwlr.
    + apply Hkeep. exact Hnext.
    + exact Hcool.
    + repeat split.
      * constructor; [exact Hres | exact Hall].
      * rewrite Hsigs, Hsig, <- app_assoc. reflexivity.
      * intros t' Ht'. apply Hlast.
        cbn [map] in Ht'. rewrite last_cons in Ht'. exact Ht'.
Qed.

(** C2, as the code has it: once the active-window failure count of an
    identity has reached the failure limit, every later failed
    login of that identity that carries a request the whitelist does not
    accept, each within the cooldown period of the one before, raises the
    lockout and sends the signal; and the count is still at or above the
    limit at every time within the cooldown period of the last of them. *)
Theorem lockout_persists_within_cooldown
  (i : Identity) (e : FailureEvent) (events : list FailureEvent) (w : World) :
  Forall (fun x => event_identity x = i) (e :: events) ->
  Forall (fun x => is_whitelisted (ev_request x) (ev_credentials x) = false)
    (e :: events) ->
  AXES_FAILURE_LIMIT settings <= failure_count i (ev_time e) (attempts w) ->
  within_cooldown (ev_time e) events ->
  Forall (fun res => res = Raised locked_out_error)
    (fst (handle_failures (e :: events) w)) /\
  user_locked_out (snd (handle_failures (e :: events) w)) =
    user_locked_out w ++
    map (fun x => locked_out_signal (ev_request x) (ev_credentials x)) (e :: events) /\
  forall t', t' - cooldown_period settings <= last (map ev_time events) (ev_time e) ->
    AXES_FAILURE_LIMIT settings <=
    failure_count i t' (attempts (snd (handle_failures (e :: events) w))).
Proof.
  intros Hid Hwl Hlocked Hcool.
  exact (lockout_persists i events e w Hid Hwl Hlocked Hcool).
Qed.

(** ** The sweep comes first *)

Lemma record_failure_origin (t : datetime) (c : Credentials) (r : HttpRequest)
  (rows : list AccessAttempt.t) :
  Forall (fun x => In x rows \/ AccessAttempt.attempt_time x = t)
    (record_failure t c r rows).
Proof.
  unfold record_failure.
  destruct (1 <? 1 + current_failures r c t rows).
  - unfold update_rows. apply Forall_forall. intros x Hin.
    apply in_map_iff in Hin. destruct Hin as (row & Hx & Hin).
    destruct (get_user_attempts r c t row); subst x; [right; reflexivity | now left].
  - apply Forall_app. split.
    + apply Forall_forall. intros x Hin. now left.
    + constructor; [right; reflexivity | constructor].
Qed.

Lemma no_active_record_of_identity (i : Identity) (t : datetime)
  (rows : list AccessAttempt.t) :
  Forall (fun x => expired t x = true) (filter (of_identity i) rows) ->
  filter (fun x => of_identity i x && active t x) rows = [].
Proof.
  intros Hexp. rewrite filter_and, filter_comm. apply filter_none.
  eapply Forall_impl; [|exact Hexp].
  intros x Hx. unfold active. now rewrite Hx.
Qed.

(** C5, as the code has it: for every failed login, with or without a
    request, whitelisted or not, each record in the table afterwards either
    survived the expiry sweep at the attempt time or was written by this
    call.  And when the failure carries a request the whitelist does not
    accept and every record of its identity is expired, the stale records
    are gone and the identity has exactly one record, newly created with
    count 1, whatever the stale count was. *)
Theorem expired_records_are_swept_before_the_count_is_read
  (t : datetime) (c : Credentials) (request : option HttpRequest) (w : World) :
  let w' := world_after (user_login_failed t c request) w in
  Forall (fun x => In x (sweep t (attempts w)) \/ AccessAttempt.attempt_time x = t)
    (attempts w') /\
  (forall r, request = Some r ->
     is_whitelisted r c = false ->
     Forall (fun x => expired t x = true)
       (filter (of_identity (client_identity r c)) (attempts w)) ->
     attempts w' = sweep t (attempts w) ++ [failure_record t c r 1] /\
     filter (of_identity (client_identity r c)) (attempts w') = [failure_record t c r 1] /\
     AccessAttempt.failures_since_start (failure_record t c r 1) = 1).
Proof.
  intros w'. split.
  - subst w'. destruct request as [r|].
    + destruct (is_whitelisted r c) eqn:Hw.
      * unfold world_after. rewrite (user_login_failed_whitelisted t c r w Hw).
        cbn [snd attempts]. apply Forall_forall. intros x Hin. now left.
      * destruct (user_login_failed_tracked t c r w Hw) as (_ & Hrows & _).
        rewrite Hrows. apply record_failure_origin.
    + unfold world_after. rewrite user_login_failed_no_request.
      cbn [snd attempts]. apply Forall_forall. intros x Hin. now left.
  - intros r -> Hw Hexp.
    destruct (fresh_failure t c r w Hw (no_active_record_of_identity _ _ _ Hexp))
      as (_ & Hrows & Hone).
    fold w' in Hrows, Hone. repeat split; assumption.
Qed.

(** ** Reset on a successful login *)

Lemma user_logged_in_resets (t : datetime) (request : HttpRequest) (user : User)
  (w : World) :
  AXES_RESET_ON_SUCCESS settings = true ->
  let username := get_username user in
  let i := client_identity request (get_credentials username) in
  let w' := world_after (user_logged_in t request user) w in
  result_of (user_logged_in t request user) w = Returned tt /\
  attempts w' = filter (fun r => negb (of_identity i r)) (sweep t (attempts w)) /\
  exists earlier,
    logged w' = earlier ++
      [{| levelname := INFO;
          msg := "AXES: Deleted %d failed login attempts by %s from database.";
          args :=
            [Int (Z.of_nat (List.length (filter (of_identity i) (sweep t (attempts w)))));
             Str (get_client_str username (get_client_ip_address request)
                    (get_client_user_agent request) (get_client_path_info request))] |}].
Proof.
  intros Hreset username i w'. subst w'.
  unfold result_of, world_after, user_logged_in. fold username.
  run_handler. rewrite Hreset.
  destruct (AXES_DISABLE_SUCCESS_ACCESS_LOG settings); cbn [negb]; run_handler;
    (split; [reflexivity|]); (split; [reflexivity|]);
    eexists; reflexivity.
Qed.

(** C7, as the code has it: with reset-on-success enabled, a successful
    login returns normally, leaves no record filed under the identity of
    the user and the request (the failure count of the identity is 0 at
    every time), and logs the number of records it deleted.  A following
    failed login of the same identity that the whitelist does not accept
    creates the identity's only record, with count 1; it returns normally
    when the failure limit is above 1, and is locked out at once when the
    limit is 1 or less. *)
Theorem successful_login_resets_the_failure_count
  (t : datetime) (request : HttpRequest) (user : User) (w : World)
  (t' : datetime) (c' : Credentials) (r' : HttpRequest) :
  AXES_RESET_ON_SUCCESS settings = true ->
  let username := get_username user in
  let i := client_identity request (get_credentials username) in
  let w1 := world_after (user_logged_in t request user) w in
  let w2 := world_after (user_login_failed t' c' (Some r')) w1 in
  result_of (user_logged_in t request user) w = Returned tt /\
  filter (of_identity i) (attempts w1) = [] /\
  (forall now, failure_count i now (attempts w1) = 0) /\
  (exists earlier,
     logged w1 = earlier ++
       [{| levelname := INFO;
           msg := "AXES: Deleted %d failed login attempts by %s from database.";
           args :=
             [Int (Z.of_nat (List.length (filter (of_identity i) (sweep t (attempts w)))));
              Str (get_client_str username (get_client_ip_address request)
                     (get_client_user_agent request) (get_client_path_info request))] |}]) /\
  (client_identity r' c' = i ->
   is_whitelisted r' c' = false ->
   filter (of_identity i) (attempts w2) = [failure_record t' c' r' 1] /\
   AccessAttempt.failures_since_start (failure_record t' c' r' 1) = 1 /\
   (1 < AXES_FAILURE_LIMIT settings ->
    result_of (user_login_failed t' c' (Some r')) w1 = Returned tt) /\
   (AXES_FAILURE_LIMIT settings <= 1 ->
    result_of (user_login_failed t' c' (Some r')) w1 = Raised locked_out_error)).
Proof.
  intros Hreset username i w1 w2.
  destruct (user_logged_in_resets t request user w Hreset) as (Hres & Hrows & Hlog).
  fold username i w1 in Hrows, Hlog.
  assert (Hnone : filter (of_identity i) (attempts w1) = []).
  { rewrite Hrows. apply filter_negb. }
  assert (Hzero : forall now, filter (fun x => of_identity i x && active now x) (attempts w1) = []).
  { intros now. rewrite filter_and, filter_comm, Hnone. reflexivity. }
  split; [exact Hres|]. split; [exact Hnone|].
  split; [intros now; unfold failure_count; now rewrite Hzero|].
  split; [exact Hlog|].
  intros Hsame Hw.
  specialize (Hzero t'). rewrite <- Hsame in Hzero.
  destruct (fresh_failure t' c' r' w1 Hw Hzero) as (Hres' & _ & Hone).
  fold w2 in Hone. rewrite Hsame in Hone.
  split; [exact Hone|]. split; [reflexivity|]. split; intros Hlim; rewrite Hres'.
  - apply Z.leb_gt in Hlim. now rewrite Hlim.
  - apply Z.leb_le in Hlim. now rewrite Hlim.
Qed.

(** * Further properties of the handler *)

(** ** What the three entry points do to the world *)

Lemma user_logged_in_run (t : datetime) (request : HttpRequest) (user : User) (w : World) :
  let i := client_identity request (get_credentials (get_username user)) in
  let w' := world_after (user_logged_in t request user) w in
  result_of (user_logged_in t request user) w = Returned tt /\
  attempts w' =
    (if AXES_RESET_ON_SUCCESS settings
     then filter (fun r => negb (of_identity i r)) (sweep t (attempts w))
     else sweep t (attempts w)) /\
  access_logs w' =
    (if AXES_DISABLE_SUCCESS_ACCESS_LOG settings
     then access_logs w
     else access_logs w ++ [login_record t request user]) /\
  user_locked_out w' = user_locked_out w.
Proof.
  intros i w'. subst i w'. unfold result_of, world_after, user_logged_in.
  run_handler.
  destruct (AXES_DISABLE_SUCCESS_ACCESS_LOG settings); cbn [negb]; run_handler;
    destruct (AXES_RESET_ON_SUCCESS settings); run_handler;
    repeat split; reflexivity.
Qed.

Lemma user_logged_out_run (t : datetime) (request : HttpRequest) (user : User) (w : World) :
  let username := get_username user in
  let w' := world_after (user_logged_out t request user) w in
  result_of (user_logged_out t request user) w = Returned tt /\
  attempts w' = sweep t (attempts w) /\
  access_logs w' =
    (if truthy username && negb (AXES_DISABLE_ACCESS_LOG settings)
     then map (fun l => if open_session_of username l then stamp_logout t l else l)
            (access_logs w)
     else access_logs w) /\
  user_locked_out w' = user_locked_out w.
Proof.
  intros username w'. subst w'. unfold result_of, world_after, user_logged_out.
  fold username. run_handler.
  destruct (truthy username && negb (AXES_DISABLE_ACCESS_LOG settings));
    run_handler; repeat split; reflexivity.
Qed.

Lemma record_failure_length (t : datetime) (c : Credentials) (r : HttpRequest)
  (rows : list AccessAttempt.t) :
  (List.length (record_failure t c r rows) <= S (List.length rows))%nat.
Proof.
  unfold record_failure.
  destruct (1 <? 1 + current_failures r c t rows).
  - unfold update_rows. rewrite length_map. lia.
  - rewrite length_app. cbn [List.length]. lia.
Qed.

(** ** The exception and the signal go together *)

(** A failed login raises exactly when it sends the lockout signal: either
    the call returns normally and no signal is sent, or the request passed
    the whitelist check, the call raises [AxesSignalPermissionDenied] and
    one signal, for this request, is appended. *)
Theorem lockout_is_raised_exactly_when_signalled
  (t : datetime) (c : Credentials) (request : option HttpRequest) (w : World) :
  let w' := world_after (user_login_failed t c request) w in
  (result_of (user_login_failed t c request) w = Returned tt /\
   user_locked_out w' = user_locked_out w) \/
  (exists r, request = Some r /\ is_whitelisted r c = false /\
     result_of (user_login_failed t c request) w = Raised locked_out_error /\
     user_locked_out w' = user_locked_out w ++ [locked_out_signal r c]).
Proof.
  intros w'. subst w'. destruct request as [r|].
  - destruct (is_whitelisted r c) eqn:Hw.
    + left. unfold result_of, world_after.
      rewrite (user_login_failed_whitelisted t c r w Hw). split; reflexivity.
    + destruct (user_login_failed_tracked t c r w Hw) as (Hres & _ & _ & Hsig).
      destruct (AXES_FAILURE_LIMIT settings <=?
                1 + current_failures r c t (sweep t (attempts w))).
      * right. exists r. auto.
      * left. rewrite app_nil_r in Hsig. auto.
  - left. unfold result_of, world_after. rewrite user_login_failed_no_request.
    split; reflexivity.
Qed.

(** A failed login never touches the session table, and it leaves at most
    one attempt record more than it found. *)
Theorem user_login_failed_frame
  (t : datetime) (c : Credentials) (request : option HttpRequest) (w : World) :
  let w' := world_after (user_login_failed t c request) w in
  access_logs w' = access_logs w /\
  (List.length (attempts w') <= S (List.length (attempts w)))%nat.
Proof.
  intros w'. subst w'.
  assert (Hsweep : (List.length (sweep t (attempts w)) <= List.length (attempts w))%nat)
    by apply filter_length_le.
  destruct request as [r|].
  - destruct (is_whitelisted r c) eqn:Hw.
    + unfold world_after. rewrite (user_login_failed_whitelisted t c r w Hw).
      cbn [snd access_logs attempts]. split; [reflexivity | lia].
    + destruct (user_login_failed_tracked t c r w Hw) as (_ & Hrows & Hlogs & _).
      split; [exact Hlogs|]. rewrite Hrows.
      pose proof (record_failure_length t c r (sweep t (attempts w))). lia.
  - unfold world_after. rewrite user_login_failed_no_request.
    cbn [snd access_logs attempts]. split; [reflexivity | lia].
Qed.

(** ** Sessions *)

(** A logout raises exactly when it is called without a user object.  In
    both cases the expiry sweep has run and no lockout signal is sent; without
    a user the call raises [AttributeError] with nothing logged and no session
    stamped, and with a user it returns normally. *)
Theorem logout_raises_exactly_without_a_user
  (t : datetime) (request : HttpRequest) (user : option User) (w : World) :
  let w' := world_after (user_logged_out_receiver t request user) w in
  attempts w' = sweep t (attempts w) /\
  user_locked_out w' = user_locked_out w /\
  (user = None ->
     result_of (user_logged_out_receiver t request user) w = Raised no_user_error /\
     access_logs w' = access_logs w /\
     logged w' = logged w) /\
  (forall u, user = Some u ->
     result_of (user_logged_out_receiver t request user) w = Returned tt /\
     exists line, logged w' = logged w ++ [line] /\ levelname line = INFO).
Proof.
  intros w'. subst w'. destruct user as [u|].
  - destruct (user_logged_out_run t request u w) as (Hres & Hrows & _ & Hsig).
    cbn [user_logged_out_receiver].
    split; [exact Hrows|]. split; [exact Hsig|]. split; [discriminate|].
    intros u' _. split; [exact Hres|].
    unfold world_after, user_logged_out. run_handler.
    destruct (truthy (get_username u) && negb (AXES_DISABLE_ACCESS_LOG settings));
      run_handler; eexists; split; reflexivity.
  - unfold result_of, world_after, user_logged_out_receiver. run_handler.
    split; [reflexivity|]. split; [reflexivity|]. split; [|discriminate].
    intros _. repeat split.
Qed.

(** Unless the success log is disabled, a successful login appends one
    session to the session table and changes none of the earlier ones: the
    session carries the user name, the request's address, user agent, accept
    header and path, the login time, the trusted mark, and no logout time.
    With the success log disabled the session table is left as it was. *)
Theorem user_logged_in_opens_a_session
  (t : datetime) (request : HttpRequest) (user : User) (w : World) :
  let w' := world_after (user_logged_in t request user) w in
  (AXES_DISABLE_SUCCESS_ACCESS_LOG settings = false ->
     access_logs w' = access_logs w ++
       [AccessLog.Build (get_username user) (get_client_ip_address request)
          (get_client_user_agent request) (get_client_http_accept request)
          (get_client_path_info request) t true None]) /\
  (AXES_DISABLE_SUCCESS_ACCESS_LOG settings = true -> access_logs w' = access_logs w).
Proof.
  intros w'. destruct (user_logged_in_run t request user w) as (_ & _ & Hlogs & _).
  fold w' in Hlogs. split; intros Hd; rewrite Hd in Hlogs; exact Hlogs.
Qed.

Lemma stamped_session_is_closed (username : string) (t : datetime) (l : AccessLog.t) :
  open_session_of username
    (if open_session_of username l then stamp_logout t l else l) = false.
Proof.
  destruct (open_session_of username l) eqn:E; [|exact E].
  unfold open_session_of. cbn [stamp_logout AccessLog.logout_time].
  apply andb_false_r.
Qed.

(** A login followed by a logout of the same named user, with both logs
    enabled: the session the login opened carries the logout time, and no
    session of that user name is left open. *)
Theorem logout_closes_the_session_the_login_opened
  (t1 t2 : datetime) (request1 request2 : HttpRequest) (user : User) (w : World) :
  AXES_DISABLE_SUCCESS_ACCESS_LOG settings = false ->
  AXES_DISABLE_ACCESS_LOG settings = false ->
  truthy (get_username user) = true ->
  let w1 := world_after (user_logged_in t1 request1 user) w in
  let w2 := world_after (user_logged_out t2 request2 user) w1 in
  In (AccessLog.Build (get_username user) (get_client_ip_address request1)
        (get_client_user_agent request1) (get_client_http_accept request1)
        (get_client_path_info request1) t1 true (Some t2))
     (access_logs w2) /\
  List.length (access_logs w2) = S (List.length (access_logs w)) /\
  Forall (fun l => open_session_of (get_username user) l = false) (access_logs w2).
Proof.
  intros Hs Ha Hu w1 w2.
  destruct (user_logged_in_run t1 request1 user w) as (_ & _ & Hlogs1 & _).
  destruct (user_logged_out_run t2 request2 user w1) as (_ & _ & Hlogs2 & _).
  fold w1 in Hlogs1. fold w2 in Hlogs2.
  rewrite Hs in Hlogs1. rewrite Hu, Ha in Hlogs2. cbn [andb negb] in Hlogs2.
  rewrite Hlogs2, Hlogs1. split; [|split].
  - rewrite map_app. apply in_or_app. right. cbn [map]. left.
    unfold login_record, AccessLog.create, open_session_of.
    cbn [AccessLog.username AccessLog.logout_time].
    rewrite String.eqb_refl. reflexivity.
  - rewrite length_map, length_app. cbn [List.length]. lia.
  - apply Forall_forall. intros l Hin. apply in_map_iff in Hin.
    destruct Hin as (l0 & <- & _). apply stamped_session_is_closed.
Qed.

(** A second logout of the same user changes nothing in the session table:
    the time the first logout stamped is not overwritten. *)
Theorem second_logout_keeps_the_first_logout_time
  (t1 t2 : datetime) (request1 request2 : HttpRequest) (user : User) (w : World) :
  let w1 := world_after (user_logged_out t1 request1 user) w in
  let w2 := world_after (user_logged_out t2 request2 user) w1 in
  access_logs w2 = access_logs w1.
Proof.
  intros w1 w2.
  destruct (user_logged_out_run t1 request1 user w) as (_ & _ & Hlogs1 & _).
  destruct (user_logged_out_run t2 request2 user w1) as (_ & _ & Hlogs2 & _).
  fold w1 in Hlogs1. fold w2 in Hlogs2.
  destruct (truthy (get_username user) && negb (AXES_DISABLE_ACCESS_LOG settings));
    [|exact Hlogs2].
  rewrite Hlogs2, Hlogs1, map_map. apply map_ext. intros l.
  now rewrite stamped_session_is_closed.
Qed.

(** The two session settings are independent: with the success log enabled
    and access logging disabled, a login opens a session that the logout of
    the same user does not close. *)
Theorem session_stays_open_when_only_access_log_is_disabled
  (t1 t2 : datetime) (request1 request2 : HttpRequest) (user : User) (w : World) :
  AXES_DISABLE_SUCCESS_ACCESS_LOG settings = false ->
  AXES_DISABLE_ACCESS_LOG settings = true ->
  let w1 := world_after (user_logged_in t1 request1 user) w in
  let w2 := world_after (user_logged_out t2 request2 user) w1 in
  access_logs w2 = access_logs w ++
    [AccessLog.Build (get_username user) (get_client_ip_address request1)
       (get_client_user_agent request1) (get_client_http_accept request1)
       (get_client_path_info request1) t1 true None].
Proof.
  intros Hs Ha w1 w2.
  destruct (user_logged_in_run t1 request1 user w) as (_ & _ & Hlogs1 & _).
  destruct (user_logged_out_run t2 request2 user w1) as (_ & _ & Hlogs2 & _).
  fold w1 in Hlogs1. fold w2 in Hlogs2.
  rewrite Hs in Hlogs1. rewrite Ha, andb_false_r in Hlogs2.
  now rewrite Hlogs2, Hlogs1.
Qed.

(** ** The count that is read *)

(** [get_failures] only reads: it returns the largest failure count among
    the selected records, which one of them holds, and 0 when no record is
    selected; the world is left as it was. *)
Theorem get_failures_is_the_largest_count
  (t : datetime) (c : Credentials) (r : HttpRequest) (w : World) :
  let selected := filter (get_user_attempts r c t) (attempts w) in
  exists n,
    get_failures r c t w = (Returned n, w) /\
    Forall (fun row => AccessAttempt.failures_since_start row <= n) selected /\
    (selected = [] -> n = 0) /\
    (selected <> [] ->
       exists row, In row selected /\ AccessAttempt.failures_since_start row = n).
Proof.
  intros selected. exists (current_failures r c t (attempts w)).
  split; [reflexivity|].
  unfold current_failures. fold selected. rewrite or_0_id.
  split; [|split].
  - apply Forall_forall. intros row Hin.
    destruct (Max_upper _ _ Hin) as (m & -> & Hle). exact Hle.
  - intros ->. reflexivity.
  - intros Hne. destruct (Max selected) as [m|] eqn:HM.
    + destruct (Max_attained _ _ HM) as (row & Hin & Hrow). now exists row.
    + destruct selected as [|x rest]; [congruence|].
      cbn [Max] in HM. destruct (Max rest); discriminate.
Qed.

(** ** One failure more *)

Lemma record_failure_bounded (t : datetime) (c : Credentials) (r : HttpRequest)
  (rows : list AccessAttempt.t) :
  Forall (fun x => active t x = true) rows ->
  Forall (fun x => of_identity (client_identity r c) x = true ->
                   AccessAttempt.failures_since_start x
                   <= 1 + current_failures r c t rows)
    (record_failure t c r rows).
Proof.
  intros Hact. rewrite Forall_forall in Hact.
  assert (Hold : forall x, In x rows -> of_identity (client_identity r c) x = true ->
                 AccessAttempt.failures_since_start x <= current_failures r c t rows).
  { intros x Hin Hid. unfold current_failures. rewrite or_0_id.
    assert (Hsel : In x (filter (get_user_attempts r c t) rows)).
    { apply filter_In. split; [exact Hin|]. unfold get_user_attempts.
      now rewrite Hid, (Hact x Hin). }
    destruct (Max_upper _ _ Hsel) as (m & -> & Hle). exact Hle. }
  unfold record_failure.
  destruct (1 <? 1 + current_failures r c t rows).
  - unfold update_rows. apply Forall_forall. intros x Hin Hid.
    apply in_map_iff in Hin. destruct Hin as (row & <- & Hin).
    rewrite update_keeps_identity in Hid.
    unfold get_user_attempts. rewrite Hid, (Hact row Hin). cbn [andb].
    read_columns. lia.
  - apply Forall_app. split.
    + apply Forall_forall. intros x Hin Hid. specialize (Hold x Hin Hid). lia.
    + constructor; [|constructor]. intros _. read_columns. lia.
Qed.

(** Every failed login that passes the whitelist check raises the
    active-window count of its identity by exactly one: read at any time
    within the cooldown period of the attempt, the count is one more than
    the count read at the attempt. *)
Theorem tracked_failure_counts_exactly_one_more
  (t t' : datetime) (c : Credentials) (r : HttpRequest) (w : World) :
  is_whitelisted r c = false ->
  t' - cooldown_period settings <= t ->
  failure_count (client_identity r c) t'
    (attempts (world_after (user_login_failed t c (Some r)) w)) =
  1 + failure_count (client_identity r c) t (attempts w).
Proof.
  intros Hw Ht'.
  destruct (user_login_failed_tracked t c r w Hw) as (_ & Hrows & _).
  change (failure_count (client_identity r c) t (attempts w))
    with (current_failures r c t (attempts w)).
  rewrite <- (current_failures_sweep t c r (attempts w)).
  destruct (record_failure_persists t c r (sweep t (attempts w)))
    as (new & Hin & Hid & Hcount & Htime).
  pose proof (record_failure_bounded t c r (sweep t (attempts w)) (sweep_active t _))
    as Hbound.
  rewrite <- Hrows in Hin, Hbound. rewrite Forall_forall in Hbound.
  set (rows' := attempts (world_after (user_login_failed t c (Some r)) w)) in *.
  assert (Hnew : In new (filter (fun x => of_identity (client_identity r c) x && active t' x)
                           rows')).
  { apply filter_In. split; [exact Hin|]. apply andb_true_iff. split.
    - now apply of_identity_true.
    - apply active_iff. now rewrite Htime. }
  destruct (Max_upper _ _ Hnew) as (m & HM & Hle).
  destruct (Max_attained _ _ HM) as (top & Htop & Hm).
  apply filter_In in Htop. destruct Htop as [Htop Hsel].
  apply andb_true_iff in Hsel. destruct Hsel as [Hsel _].
  specialize (Hbound top Htop Hsel).
  unfold failure_count. rewrite HM, or_0_id. lia.
Qed.

(** ** Other identities *)

Lemma of_identity_other (i j : Identity) (x : AccessAttempt.t) :
  j <> i -> record_identity x = i -> of_identity j x = false.
Proof.
  intros Hne Hx. destruct (of_identity j x) eqn:E; [|reflexivity].
  apply of_identity_true in E. congruence.
Qed.

(** A failed login leaves the records of every other identity as the sweep
    left them: none is added, removed or changed. *)
Theorem failure_leaves_other_identities_alone
  (t : datetime) (c : Credentials) (r : HttpRequest) (w : World) (j : Identity) :
  j <> client_identity r c ->
  filter (of_identity j) (attempts (world_after (user_login_failed t c (Some r)) w)) =
  filter (of_identity j) (sweep t (attempts w)).
Proof.
  intros Hne. destruct (is_whitelisted r c) eqn:Hw.
  - unfold world_after. now rewrite (user_login_failed_whitelisted t c r w Hw).
  - destruct (user_login_failed_tracked t c r w Hw) as (_ & Hrows & _).
    rewrite Hrows. unfold record_failure.
    destruct (1 <? 1 + current_failures r c t (sweep t (attempts w))).
    + unfold update_rows.
      rewrite filter_map_stable.
      * rewrite <- (map_id (filter (of_identity j) (sweep t (attempts w)))) at 2.
        apply map_ext_in. intros x Hin. apply filter_In in Hin.
        destruct Hin as [_ Hj].
        destruct (get_user_attempts r c t x) eqn:Hsel; [|reflexivity].
        unfold get_user_attempts in Hsel. apply andb_true_iff in Hsel.
        destruct Hsel as [Hi _]. apply of_identity_true in Hi.
        rewrite (of_identity_other _ _ _ Hne Hi) in Hj. discriminate.
      * intros x _. destruct (get_user_attempts r c t x) eqn:Hsel; [|reflexivity].
        unfold get_user_attempts in Hsel. apply andb_true_iff in Hsel.
        destruct Hsel as [Hi _]. apply of_identity_true in Hi.
        rewrite (of_identity_other _ _ _ Hne Hi).
        apply (of_identity_other (client_identity r c)); [exact Hne|].
        now apply record_identity_failure_update.
    + rewrite filter_app. cbn [filter].
      rewrite (of_identity_other (client_identity r c) j); [apply app_nil_r | exact Hne|].
      apply record_identity_failure_record.
Qed.

(** ** Success without reset *)

(** With reset-on-success disabled a successful login only sweeps the
    attempt table, so the failures on record still count: when the identity
    of a later failure has one record, still active, that failure updates
    it to one more. *)
Theorem login_without_reset_keeps_the_count
  (t t' : datetime) (request : HttpRequest) (user : User) (w : World)
  (c' : Credentials) (r' : HttpRequest) (row : AccessAttempt.t) :
  AXES_RESET_ON_SUCCESS settings = false ->
  is_whitelisted r' c' = false ->
  filter (of_identity (client_identity r' c')) (attempts w) = [row] ->
  t - cooldown_period settings <= AccessAttempt.attempt_time row ->
  t' - cooldown_period settings <= AccessAttempt.attempt_time row ->
  1 <= AccessAttempt.failures_since_start row ->
  let w1 := world_after (user_logged_in t request user) w in
  let w2 := world_after (user_login_failed t' c' (Some r')) w1 in
  attempts w1 = sweep t (attempts w) /\
  filter (of_identity (client_identity r' c')) (attempts w2) =
    [failure_update t' r' (1 + AccessAttempt.failures_since_start row) row].
Proof.
  intros Hreset Hw Hone Ht Ht' Hge w1 w2.
  destruct (user_logged_in_run t request user w) as (_ & Hrows & _).
  fold w1 in Hrows. rewrite Hreset in Hrows. split; [exact Hrows|].
  assert (Hone1 : filter (of_identity (client_identity r' c')) (attempts w1) = [row]).
  { rewrite Hrows. unfold sweep. rewrite filter_comm, Hone. cbn [filter].
    replace (active t row) with true; [reflexivity|].
    symmetry. now apply active_iff. }
  apply (repeated_failure t' c' r' w1 row Hw Hone1 Ht' Hge).
Qed.

(** ** The table stays well formed *)

Lemma one_record_per_identity_filter (qs : QuerySet) (rows : list AccessAttempt.t) :
  one_record_per_identity rows -> one_record_per_identity (filter qs rows).
Proof.
  unfold one_record_per_identity.
  induction rows as [|row rest IH]; intros Hone; [exact Hone|].
  cbn [map] in Hone. apply NoDup_cons_iff in Hone. destruct Hone as [Hfresh Hrest].
  cbn [filter]. destruct (qs row); [|exact (IH Hrest)].
  cbn [map]. apply NoDup_cons; [|exact (IH Hrest)].
  rewrite in_map_iff. intros (other & Hsame & Hin).
  apply filter_In in Hin. apply Hfresh, in_map_iff.
  exists other. split; [exact Hsame | apply Hin].
Qed.

Lemma positive_counts_filter (p : AccessAttempt.t -> bool) (rows : list AccessAttempt.t) :
  positive_counts rows -> positive_counts (filter p rows).
Proof.
  unfold positive_counts. rewrite !Forall_forall. intros H x Hin.
  apply filter_In in Hin. now apply H.
Qed.

Lemma current_failures_nonneg (t : datetime) (c : Credentials) (r : HttpRequest)
  (rows : list AccessAttempt.t) :
  positive_counts rows -> 0 <= current_failures r c t rows.
Proof.
  intros Hpos. unfold current_failures. rewrite or_0_id.
  destruct (Max (filter (get_user_attempts r c t) rows)) as [m|] eqn:HM; [|lia].
  destruct (Max_attained _ _ HM) as (row & Hin & <-).
  apply filter_In in Hin. destruct Hin as [Hin _].
  unfold positive_counts in Hpos. rewrite Forall_forall in Hpos.
  specialize (Hpos row Hin). lia.
Qed.

Lemma record_failure_positive (t : datetime) (c : Credentials) (r : HttpRequest)
  (rows : list AccessAttempt.t) :
  positive_counts rows -> positive_counts (record_failure t c r rows).
Proof.
  intros Hpos. pose proof (current_failures_nonneg t c r rows Hpos) as Hnn.
  unfold record_failure, positive_counts in *.
  destruct (1 <? 1 + current_failures r c t rows).
  - unfold update_rows. rewrite Forall_forall in *. intros x Hin.
    apply in_map_iff in Hin. destruct Hin as (row & <- & Hin).
    destruct (get_user_attempts r c t row); [read_columns; lia | now apply Hpos].
  - apply Forall_app. split; [exact Hpos|].
    constructor; [read_columns; lia | constructor].
Qed.

Lemma record_failure_one_per_identity (t : datetime) (c : Credentials) (r : HttpRequest)
  (rows : list AccessAttempt.t) :
  Forall (fun x => active t x = true) rows ->
  positive_counts rows ->
  one_record_per_identity rows ->
  one_record_per_identity (record_failure t c r rows).
Proof.
  intros Hact Hpos Hone. unfold one_record_per_identity, record_failure in *.
  destruct (1 <? 1 + current_failures r c t rows) eqn:E.
  - unfold update_rows. rewrite map_map.
    erewrite map_ext; [exact Hone|]. intros x. cbn beta.
    destruct (get_user_attempts r c t x) eqn:Hsel; [|reflexivity].
    unfold get_user_attempts in Hsel. apply andb_true_iff in Hsel.
    destruct Hsel as [Hi _]. apply of_identity_true in Hi.
    rewrite Hi. now apply record_identity_failure_update.
  - rewrite map_app. cbn [map]. rewrite record_identity_failure_record.
    apply NoDup_app; [exact Hone | constructor; [intros []|constructor] |].
    intros i Hin [<-|[]]. apply in_map_iff in Hin.
    destruct Hin as (x & Hx & Hin).
    assert (Hsel : In x (filter (get_user_attempts r c t) rows)).
    { apply filter_In. split; [exact Hin|]. unfold get_user_attempts.
      rewrite Forall_forall in Hact. rewrite (Hact x Hin), andb_true_r.
      now apply of_identity_true. }
    destruct (Max_upper _ _ Hsel) as (m & HM & Hle).
    unfold positive_counts in Hpos. rewrite Forall_forall in Hpos.
    specialize (Hpos x Hin).
    apply Z.ltb_ge in E. unfold current_failures in E.
    rewrite HM, or_0_id in E. lia.
Qed.

Lemma user_login_failed_keeps_well_formed
  (t : datetime) (c : Credentials) (request : option HttpRequest) (w : World) :
  positive_counts (attempts w) ->
  one_record_per_identity (attempts w) ->
  positive_counts (attempts (world_after (user_login_failed t c request) w)) /\
  one_record_per_identity (attempts (world_after (user_login_failed t c request) w)).
Proof.
  intros Hpos Hone.
  assert (Hpos' : positive_counts (sweep t (attempts w)))
    by now apply positive_counts_filter.
  assert (Hone' : one_record_per_identity (sweep t (attempts w)))
    by now apply one_record_per_identity_filter.
  destruct request as [r0|].
  - destruct (is_whitelisted r0 c) eqn:Hw.
    + unfold world_after. rewrite (user_login_failed_whitelisted t c r0 w Hw).
      cbn [snd attempts]. now split.
    + destruct (user_login_failed_tracked t c r0 w Hw) as (_ & Hrows & _).
      rewrite Hrows. split.
      * now apply record_failure_positive.
      * apply record_failure_one_per_identity; [apply sweep_active | | ]; assumption.
  - unfold world_after. rewrite user_login_failed_no_request.
    cbn [snd attempts]. now split.
Qed.

(** The three entry points keep the attempt table well formed: if every
    record counts at least one failure and no two records are filed under
    the same identity, the same holds after a failed login (with or without
    a request, whitelisted or not), after a successful login and after a
    logout. *)
Theorem handlers_keep_one_positive_record_per_identity
  (t : datetime) (c : Credentials) (request : option HttpRequest)
  (r : HttpRequest) (user : User) (w : World) :
  positive_counts (attempts w) ->
  one_record_per_identity (attempts w) ->
  (positive_counts (attempts (world_after (user_login_failed t c request) w)) /\
   one_record_per_identity (attempts (world_after (user_login_failed t c request) w))) /\
  (positive_counts (attempts (world_after (user_logged_in t r user) w)) /\
   one_record_per_identity (attempts (world_after (user_logged_in t r user) w))) /\
  (positive_counts (attempts (world_after (user_logged_out t r user) w)) /\
   one_record_per_identity (attempts (world_after (user_logged_out t r user) w))).
Proof.
  intros Hpos Hone.
  assert (Hpos' : positive_counts (sweep t (attempts w)))
    by now apply positive_counts_filter.
  assert (Hone' : one_record_per_identity (sweep t (attempts w)))
    by now apply one_record_per_identity_filter.
  split; [|split].
  - now apply user_login_failed_keeps_well_formed.
  - destruct (user_logged_in_run t r user w) as (_ & Hrows & _). rewrite Hrows.
    destruct (AXES_RESET_ON_SUCCESS settings); [|now split].
    split; [now apply positive_counts_filter | now apply one_record_per_identity_filter].
  - destruct (user_logged_out_run t r user w) as (_ & Hrows & _). rewrite Hrows.
    now split.
Qed.

(** Starting from a table that is well formed, any sequence of failed
    logins leaves it well formed; in particular, from the empty table, no
    sequence of failures ever produces two records of one identity or a
    record that counts no failure. *)
Theorem failures_keep_the_table_well_formed (events : list FailureEvent) :
  forall w : World,
  positive_counts (attempts w) ->
  one_record_per_identity (attempts w) ->
  positive_counts (attempts (snd (handle_failures events w))) /\
  one_record_per_identity (attempts (snd (handle_failures events w))).
Proof.
  induction events as [|e rest IH]; intros w Hpos Hone.
  - cbn. now split.
  - rewrite handle_failures_cons. cbn [snd].
    destruct (user_login_failed_keeps_well_formed (ev_time e) (ev_credentials e)
                (Some (ev_request e)) w Hpos Hone) as (Hpos' & Hone').
    now apply IH.
Qed.

(** ** The logger *)

(** Every call of [user_login_failed] writes to the logger and keeps what
    was logged before; it logs at the error level exactly when it is called
    without a request. *)
Theorem user_login_failed_logs_every_call
  (t : datetime) (c : Credentials) (request : option HttpRequest) (w : World) :
  exists new,
    logged (world_after (user_login_failed t c request) w) = logged w ++ new /\
    (1 <= List.length new <= 2)%nat /\
    existsb is_error new = match request with None => true | Some _ => false end.
Proof.
  destruct request as [r|].
  - destruct (is_whitelisted r c) eqn:Hw.
    + unfold world_after. rewrite (user_login_failed_whitelisted t c r w Hw).
      cbn [snd logged]. eexists. split; [reflexivity|]. cbn. split; [lia | reflexivity].
    + unfold world_after, user_login_failed. run_handler. rewrite Hw. run_handler.
      destruct (1 <? 1 + or_0 (Max (filter (get_user_attempts r c t)
                                      (filter (fun x => negb (expired t x)) (attempts w)))));
        run_handler;
        destruct (AXES_FAILURE_LIMIT settings <=?
                  1 + or_0 (Max (filter (get_user_attempts r c t)
                                   (filter (fun x => negb (expired t x)) (attempts w)))));
        run_handler; rewrite <- ?app_assoc;
        (eexists; split; [reflexivity|]; cbn; split; [lia | reflexivity]).
  - unfold world_after. rewrite user_login_failed_no_request.
    cbn [snd logged]. eexists. split; [reflexivity|]. cbn. split; [lia | reflexivity].
Qed.

End Handler.

(** * The handler on the concrete framework *)

Import Demo.

(** The scenario of a limit of 3: the first two failures are recorded, the
    third is locked out and the signal names the user; one record holds the
    count. *)
Example three_failures_lock_out :
  fst (handle_failures settings three_failures empty_world) =
    [Returned tt; Returned tt; Raised locked_out_error] /\
  map AccessAttempt.failures_since_start
    (attempts (snd (handle_failures settings three_failures empty_world))) = [3] /\
  user_locked_out (snd (handle_failures settings three_failures empty_world)) =
    [locked_out_signal browser "alice"].
Proof. vm_compute. repeat split. Qed.

(** The separator between the accumulated request data is a dashed line. *)
Example separator_is_a_dashed_line :
  String.length separator = 11%nat /\
  String.get 0 separator = Some (Ascii.ascii_of_nat 10) /\
  String.get 10 separator = Some (Ascii.ascii_of_nat 10).
Proof. vm_compute. repeat split. Qed.

(** A table with one record of two failures; the third failure locks the
    client out, and a first failure on the empty table is only recorded. *)
Lemma user_login_failed_locks_out_at_limit_witness :
  is_whitelisted browser "alice" = false /\
  result_of (user_login_failed settings 30 "alice" (Some browser))
    (world_with [attempt_of "alice" 2 20]) = Raised locked_out_error /\
  result_of (user_login_failed settings 30 "alice" (Some browser)) empty_world
    = Returned tt.
Proof.
  split; [reflexivity|]. split.
  - destruct (user_login_failed_locks_out_at_limit (fw := framework) settings 30 "alice" browser
                (world_with [attempt_of "alice" 2 20]) eq_refl) as (_ & Hlock & _).
    apply Hlock. vm_compute. discriminate.
  - destruct (user_login_failed_locks_out_at_limit (fw := framework) settings 30 "alice" browser
                empty_world eq_refl) as (_ & _ & Hrec).
    apply Hrec. vm_compute. reflexivity.
Defined.

(** C4 as stated fails: being whitelisted is not one notion in the code.
    The account that [is_locked] exempts is locked out by the third failed
    login, because the handler consults another check; and the address the
    handler exempts is reported locked by [is_locked], whose own check does
    not accept it. *)
Lemma whitelisted_on_one_path_is_locked_out_on_the_other :
  is_user_attempt_whitelisted browser "service" = true /\
  result_of (is_locked browser "service" None) (world_with [attempt_of "service" 2 20])
    = Returned false /\
  is_whitelisted browser "service" = false /\
  result_of (user_login_failed settings 30 "service" (Some browser))
    (world_with [attempt_of "service" 2 20]) = Raised locked_out_error /\
  is_whitelisted loopback "alice" = true /\
  result_of (user_login_failed settings 40 "alice" (Some loopback))
    (world_with [attempt_of "alice" 3 30]) = Returned tt /\
  is_user_attempt_whitelisted loopback "alice" = false /\
  result_of (is_locked loopback "alice" None) (world_with [attempt_of "alice" 3 30])
    = Returned true.
Proof.
  vm_compute. repeat split.
Qed.

(** A client that both whitelist checks accept, with seven failures on
    record and a base handler that would report it locked. *)
Lemma whitelisted_client_is_never_locked_out_witness :
  is_whitelisted loopback "service" = true /\
  is_user_attempt_whitelisted loopback "service" = true /\
  result_of (user_login_failed settings 40 "service" (Some loopback))
    (world_with [attempt_of "service" 7 30]) = Returned tt /\
  result_of (is_locked loopback "service" None)
    (world_with [attempt_of "service" 7 30]) = Returned false.
Proof.
  destruct (whitelisted_client_is_never_locked_out (fw := framework) settings 40 None "service" loopback
              (world_with [attempt_of "service" 7 30])) as [Hfailed Hlocked].
  split; [reflexivity|]. split; [reflexivity|]. split.
  - apply (Hfailed eq_refl).
  - apply (Hlocked eq_refl).
Defined.

(** A call without a request at time 500 removes a record last touched at
    time 10. *)
Lemma user_login_failed_without_request_still_sweeps_witness :
  In (attempt_of "alice" 2 10) (attempts (world_with [attempt_of "alice" 2 10])) /\
  expired settings 500 (attempt_of "alice" 2 10) = true /\
  attempts (world_after (user_login_failed settings 500 "alice" None)
              (world_with [attempt_of "alice" 2 10]))
    <> attempts (world_with [attempt_of "alice" 2 10]).
Proof.
  destruct (user_login_failed_without_request_still_sweeps (fw := framework) settings 500 "alice"
              (world_with [attempt_of "alice" 2 10])) as (_ & _ & _ & Hgone).
  split; [left; reflexivity|]. split; [reflexivity|].
  apply (Hgone (attempt_of "alice" 2 10)); [left; reflexivity | reflexivity].
Defined.

(** C2 as stated fails: after three failures the count of the identity has
    reached the limit of 3, and a fourth failure of the same identity, ten
    time units later, is not locked out, because it comes from an address on
    the whitelist. *)
Lemma whitelisted_failure_after_lockout_is_not_locked_out :
  let w := snd (handle_failures settings three_failures empty_world) in
  fst (handle_failures settings three_failures empty_world) =
    [Returned tt; Returned tt; Raised locked_out_error] /\
  AXES_FAILURE_LIMIT settings <=
    failure_count settings (client_identity settings loopback "alice") 40 (attempts w) /\
  client_identity settings loopback "alice" = client_identity settings browser "alice" /\
  result_of (user_login_failed settings 40 "alice" (Some loopback)) w = Returned tt /\
  result_of (user_login_failed settings 40 "alice" (Some loopback)) w
    <> Raised locked_out_error.
Proof.
  vm_compute. repeat split; discriminate.
Qed.

(** A locked identity and two more failures, from two clients. *)
Lemma lockout_persists_within_cooldown_witness :
  AXES_FAILURE_LIMIT settings <=
    failure_count settings (client_identity settings browser "alice") 40
      (attempts (world_with [attempt_of "alice" 3 30])) /\
  within_cooldown settings 40 [failure 50 script "alice"] /\
  Forall (fun res => res = Raised locked_out_error)
    (fst (handle_failures settings
            [failure 40 browser "alice"; failure 50 script "alice"]
            (world_with [attempt_of "alice" 3 30]))).
Proof.
  assert (Hlocked : AXES_FAILURE_LIMIT settings <=
            failure_count settings (client_identity settings browser "alice") 40
              (attempts (world_with [attempt_of "alice" 3 30])))
    by (vm_compute; discriminate).
  assert (Hcool : within_cooldown settings 40 [failure 50 script "alice"])
    by (simpl; lia).
  split; [exact Hlocked|]. split; [exact Hcool|].
  apply (lockout_persists_within_cooldown (fw := framework) settings
           (client_identity (fw := framework) settings browser "alice")
           (failure 40 browser "alice") [failure 50 script "alice"]
           (world_with [attempt_of "alice" 3 30])).
  - repeat constructor.
  - repeat constructor.
  - exact Hlocked.
  - exact Hcool.
Defined.

(** C3 as stated fails: one failure, fewer than the limit of 3, from an
    address on the whitelist leaves no record of the identity at all. *)
Lemma whitelisted_failure_is_not_counted :
  Z.of_nat (List.length [failure 10 loopback "alice"]) < AXES_FAILURE_LIMIT settings /\
  fst (handle_failures settings [failure 10 loopback "alice"] empty_world) = [Returned tt] /\
  filter (of_identity settings (client_identity settings loopback "alice"))
    (attempts (snd (handle_failures settings [failure 10 loopback "alice"] empty_world)))
    = [].
Proof.
  vm_compute. repeat split.
Qed.

(** Two failures for one user name from two clients. *)
Lemma consecutive_failures_are_counted_on_one_record_witness :
  within_cooldown settings 10 [failure 20 script "alice"] /\
  Z.of_nat (List.length [failure 10 browser "alice"; failure 20 script "alice"])
    < AXES_FAILURE_LIMIT settings /\
  exists row,
    filter (of_identity settings (client_identity settings browser "alice"))
      (attempts (snd (handle_failures settings
                        [failure 10 browser "alice"; failure 20 script "alice"]
                        empty_world))) = [row] /\
    AccessAttempt.failures_since_start row = 2.
Proof.
  assert (Hcool : within_cooldown settings 10 [failure 20 script "alice"])
    by (simpl; lia).
  assert (Hlim : Z.of_nat (List.length [failure 10 browser "alice";
                                        failure 20 script "alice"])
                 < AXES_FAILURE_LIMIT settings) by reflexivity.
  split; [exact Hcool|]. split; [exact Hlim|].
  destruct (consecutive_failures_are_counted_on_one_record (fw := framework) settings
              (client_identity (fw := framework) settings browser "alice")
              (failure 10 browser "alice") [failure 20 script "alice"] empty_world)
    as (_ & row & Hrow & Hcount & _).
  - repeat constructor.
  - repeat constructor.
  - exact Hcool.
  - reflexivity.
  - exact Hlim.
  - exists row. split; [exact Hrow | exact Hcount].
Defined.

(** C5 as stated fails: the only record of the identity, last touched at
    time 10, is expired at time 500; a failure from an address on the
    whitelist arrives, the record is swept and no new record is created. *)
Lemma whitelisted_failure_creates_no_fresh_record :
  expired settings 500 (attempt_of "alice" 2 10) = true /\
  filter (of_identity settings (client_identity settings loopback "alice"))
    [attempt_of "alice" 2 10] = [attempt_of "alice" 2 10] /\
  attempts (world_after (user_login_failed settings 500 "alice" (Some loopback))
              (world_with [attempt_of "alice" 2 10])) = [].
Proof.
  vm_compute. repeat split.
Qed.

(** The same stale record and a failure the whitelist does not accept. *)
Lemma expired_records_are_swept_before_the_count_is_read_witness :
  is_whitelisted browser "alice" = false /\
  Forall (fun x => expired settings 500 x = true)
    (filter (of_identity settings (client_identity settings browser "alice"))
       (attempts (world_with [attempt_of "alice" 2 10]))) /\
  attempts (world_after (user_login_failed settings 500 "alice" (Some browser))
              (world_with [attempt_of "alice" 2 10]))
    = [failure_record 500 "alice" browser 1].
Proof.
  assert (Hexp : Forall (fun x => expired settings 500 x = true)
            (filter (of_identity settings (client_identity settings browser "alice"))
               (attempts (world_with [attempt_of "alice" 2 10]))))
    by (repeat constructor).
  split; [reflexivity|]. split; [exact Hexp|].
  destruct (expired_records_are_swept_before_the_count_is_read (fw := framework) settings 500 "alice"
              (Some browser) (world_with [attempt_of "alice" 2 10])) as [_ Hfresh].
  destruct (Hfresh browser eq_refl eq_refl Hexp) as (Hrows & _).
  exact Hrows.
Defined.

(** C6 as stated fails: a second failure for the same user name, sent by
    another client, updates the record; besides the count, the time and the
    GET and POST data, the accept header and the path of the record are
    replaced by those of the second request. *)
Lemma repeated_failure_overwrites_accept_and_path :
  let w := world_with [attempt_of "alice" 1 10] in
  let w' := world_after (user_login_failed settings 20 "alice" (Some script)) w in
  map AccessAttempt.failures_since_start (attempts w') = [2] /\
  map AccessAttempt.path_info (attempts w) = ["/login"] /\
  map AccessAttempt.path_info (attempts w') = ["/admin/login"] /\
  map AccessAttempt.http_accept (attempts w) = ["text/html"] /\
  map AccessAttempt.http_accept (attempts w') = ["*/*"] /\
  map AccessAttempt.path_info (attempts w') <> map AccessAttempt.path_info (attempts w) /\
  map AccessAttempt.http_accept (attempts w') <> map AccessAttempt.http_accept (attempts w).
Proof.
  vm_compute. repeat split; discriminate.
Qed.

(** The same update, read through the theorem. *)
Lemma repeated_failure_keeps_identity_columns_witness :
  is_whitelisted script "alice" = false /\
  1 <= current_failures settings script "alice" 20
         (sweep settings 20 (attempts (world_with [attempt_of "alice" 1 10]))) /\
  exists old,
    In old (sweep settings 20 (attempts (world_with [attempt_of "alice" 1 10]))) /\
    get_user_attempts settings script "alice" 20 old = true.
Proof.
  assert (Hcount : 1 <= current_failures settings script "alice" 20
            (sweep settings 20 (attempts (world_with [attempt_of "alice" 1 10]))))
    by (vm_compute; discriminate).
  split; [reflexivity|]. split; [exact Hcount|].
  apply (repeated_failure_keeps_identity_columns (fw := framework) settings 20 "alice" script
           (world_with [attempt_of "alice" 1 10]) eq_refl Hcount).
Defined.

(** C7 as stated fails: with a failure limit of 1, the failure that follows
    a successful login with reset starts a record with count 1 and is locked
    out at once. *)
Lemma failure_after_reset_is_locked_out_at_limit_one :
  let w1 := world_after (user_logged_in strict_settings 50 browser "alice")
              (world_with [attempt_of "alice" 2 40]) in
  let w2 := world_after (user_login_failed strict_settings 60 "alice" (Some browser)) w1 in
  AXES_RESET_ON_SUCCESS strict_settings = true /\
  attempts w1 = [] /\
  map AccessAttempt.failures_since_start (attempts w2) = [1] /\
  result_of (user_login_failed strict_settings 60 "alice" (Some browser)) w1
    = Raised locked_out_error /\
  result_of (user_login_failed strict_settings 60 "alice" (Some browser)) w1
    <> Returned tt.
Proof.
  vm_compute. repeat split; discriminate.
Qed.

(** A successful login after two failures, then a failure from another
    client for the same user name, under a limit of 3. *)
Lemma successful_login_resets_the_failure_count_witness :
  AXES_RESET_ON_SUCCESS settings = true /\
  client_identity settings script "alice"
    = client_identity settings browser (get_credentials (get_username "alice")) /\
  is_whitelisted script "alice" = false /\
  1 < AXES_FAILURE_LIMIT settings /\
  result_of (user_login_failed settings 60 "alice" (Some script))
    (world_after (user_logged_in settings 50 browser "alice")
       (world_with [attempt_of "alice" 2 40])) = Returned tt.
Proof.
  split; [reflexivity|]. split; [reflexivity|]. split; [reflexivity|].
  split; [reflexivity|].
  destruct (successful_login_resets_the_failure_count (fw := framework) settings 50 browser "alice"
              (world_with [attempt_of "alice" 2 40]) 60 "alice" script eq_refl)
    as (_ & _ & _ & _ & Hnext).
  destruct (Hnext eq_refl eq_refl) as (_ & _ & Hrecorded & _).
  apply Hrecorded. reflexivity.
Defined.

(** C9 as stated fails: the user has two open sessions, opened at times 10
    and 20; the logout at time 50 stamps both, the older one included. *)
Lemma logout_stamps_the_older_open_session_too :
  access_logs world_with_sessions =
    [session "alice" 10 None; session "alice" 20 None; session "bob" 15 None] /\
  access_logs (world_after (user_logged_out settings 50 browser "alice")
                 world_with_sessions) =
    [session "alice" 10 (Some 50); session "alice" 20 (Some 50); session "bob" 15 None] /\
  session "alice" 10 (Some 50) <> session "alice" 10 None.
Proof.
  vm_compute. repeat split; discriminate.
Qed.

(** A logout of a named user, and a logout without a user name. *)
Lemma user_logged_out_stamps_every_open_session_witness :
  truthy (get_username "alice") = true /\
  AXES_DISABLE_ACCESS_LOG settings = false /\
  truthy (get_username "") = false /\
  List.length (access_logs (world_after (user_logged_out settings 50 browser "alice")
                              world_with_sessions)) = 3%nat /\
  access_logs (world_after (user_logged_out settings 50 browser "") world_with_sessions)
    = access_logs world_with_sessions.
Proof.
  split; [reflexivity|]. split; [reflexivity|]. split; [reflexivity|]. split.
  - destruct (user_logged_out_stamps_every_open_session (fw := framework) settings 50 browser "alice"
                world_with_sessions) as (_ & _ & Hstamp & _).
    rewrite <- (Forall2_length (Hstamp eq_refl eq_refl)). reflexivity.
  - destruct (user_logged_out_stamps_every_open_session (fw := framework) settings 50 browser ""
                world_with_sessions) as (_ & _ & _ & Hkeep).
    apply Hkeep. left. reflexivity.
Defined.

(** ** Further properties on the concrete framework *)

(** A login with the success log enabled, and one with it disabled. *)
Lemma user_logged_in_opens_a_session_witness :
  AXES_DISABLE_SUCCESS_ACCESS_LOG settings = false /\
  AXES_DISABLE_SUCCESS_ACCESS_LOG unlogged_settings = true /\
  access_logs (world_after (user_logged_in settings 50 browser "alice") empty_world)
    = [session "alice" 50 None] /\
  access_logs (world_after (user_logged_in unlogged_settings 50 browser "alice")
                 empty_world) = [].
Proof.
  split; [reflexivity|]. split; [reflexivity|]. split.
  - destruct (user_logged_in_opens_a_session (fw := framework) settings 50 browser
                "alice" empty_world) as [Hopen _].
    apply (Hopen eq_refl).
  - destruct (user_logged_in_opens_a_session (fw := framework) unlogged_settings 50
                browser "alice" empty_world) as [_ Hkeep].
    apply (Hkeep eq_refl).
Defined.

(** A login at time 50 and a logout at time 90, sent by another client. *)
Lemma logout_closes_the_session_the_login_opened_witness :
  AXES_DISABLE_SUCCESS_ACCESS_LOG settings = false /\
  AXES_DISABLE_ACCESS_LOG settings = false /\
  truthy (get_username "alice") = true /\
  In (session "alice" 50 (Some 90))
    (access_logs (world_after (user_logged_out settings 90 script "alice")
                    (world_after (user_logged_in settings 50 browser "alice")
                       world_with_sessions))).
Proof.
  split; [reflexivity|]. split; [reflexivity|]. split; [reflexivity|].
  apply (logout_closes_the_session_the_login_opened (fw := framework) settings 50 90
           browser script "alice" world_with_sessions eq_refl eq_refl eq_refl).
Defined.

(** The same login and logout when only access logging is disabled. *)
Lemma session_stays_open_when_only_access_log_is_disabled_witness :
  AXES_DISABLE_SUCCESS_ACCESS_LOG half_logged_settings = false /\
  AXES_DISABLE_ACCESS_LOG half_logged_settings = true /\
  access_logs (world_after (user_logged_out half_logged_settings 90 browser "alice")
                 (world_after (user_logged_in half_logged_settings 50 browser "alice")
                    empty_world))
    = [session "alice" 50 None].
Proof.
  split; [reflexivity|]. split; [reflexivity|].
  apply (session_stays_open_when_only_access_log_is_disabled (fw := framework)
           half_logged_settings 50 90 browser browser "alice" empty_world
           eq_refl eq_refl).
Defined.

(** The count read from a table with one record of the client, and from the
    empty table. *)
Lemma get_failures_is_the_largest_count_witness :
  filter (get_user_attempts settings browser "alice" 30)
    (attempts (world_with [attempt_of "alice" 2 20])) <> [] /\
  filter (get_user_attempts settings browser "alice" 30) (attempts empty_world) = [] /\
  (exists n, get_failures settings browser "alice" 30 (world_with [attempt_of "alice" 2 20])
             = (Returned n, world_with [attempt_of "alice" 2 20]) /\
             exists row, In row [attempt_of "alice" 2 20] /\
                         AccessAttempt.failures_since_start row = n) /\
  get_failures settings browser "alice" 30 empty_world = (Returned 0, empty_world).
Proof.
  assert (Hne : filter (get_user_attempts settings browser "alice" 30)
                  (attempts (world_with [attempt_of "alice" 2 20])) <> [])
    by (vm_compute; discriminate).
  split; [exact Hne|]. split; [reflexivity|]. split.
  - destruct (get_failures_is_the_largest_count (fw := framework) settings 30 "alice"
                browser (world_with [attempt_of "alice" 2 20]))
      as (n & Hrun & _ & _ & Hattained).
    exists n. split; [exact Hrun|].
    destruct (Hattained Hne) as (row & Hin & Hrow).
    exists row. split; [|exact Hrow].
    apply filter_In in Hin. apply Hin.
  - destruct (get_failures_is_the_largest_count (fw := framework) settings 30 "alice"
                browser empty_world) as (n & Hrun & _ & Hzero & _).
    rewrite Hrun, (Hzero eq_refl). reflexivity.
Defined.

(** Two failures on record at time 20; a third at time 30, read at time 50. *)
Lemma tracked_failure_counts_exactly_one_more_witness :
  is_whitelisted browser "alice" = false /\
  50 - cooldown_period settings <= 30 /\
  failure_count settings (client_identity settings browser "alice") 50
    (attempts (world_after (user_login_failed settings 30 "alice" (Some browser))
                 (world_with [attempt_of "alice" 2 20])))
  = 1 + failure_count settings (client_identity settings browser "alice") 30
          (attempts (world_with [attempt_of "alice" 2 20])).
Proof.
  assert (Hin : 50 - cooldown_period settings <= 30) by (vm_compute; discriminate).
  split; [reflexivity|]. split; [exact Hin|].
  apply (tracked_failure_counts_exactly_one_more (fw := framework) settings 30 50
           "alice" browser (world_with [attempt_of "alice" 2 20]) eq_refl Hin).
Defined.

(** A failure for one user name and the record of another. *)
Lemma failure_leaves_other_identities_alone_witness :
  client_identity settings browser "bob" <> client_identity settings browser "alice" /\
  filter (of_identity settings (client_identity settings browser "bob"))
    (attempts (world_after (user_login_failed settings 30 "alice" (Some browser))
                 (world_with [attempt_of "bob" 2 20; attempt_of "alice" 1 25])))
  = filter (of_identity settings (client_identity settings browser "bob"))
      (sweep settings 30
         (attempts (world_with [attempt_of "bob" 2 20; attempt_of "alice" 1 25]))).
Proof.
  assert (Hne : client_identity (fw := framework) settings browser "bob"
                <> client_identity (fw := framework) settings browser "alice")
    by (vm_compute; discriminate).
  split; [exact Hne|].
  apply (failure_leaves_other_identities_alone (fw := framework) settings 30 "alice"
           browser (world_with [attempt_of "bob" 2 20; attempt_of "alice" 1 25])
           (client_identity (fw := framework) settings browser "bob") Hne).
Defined.

(** Two failures on record, a successful login without reset, one more
    failure. *)
Lemma login_without_reset_keeps_the_count_witness :
  AXES_RESET_ON_SUCCESS unlogged_settings = false /\
  is_whitelisted script "alice" = false /\
  map AccessAttempt.failures_since_start
    (filter (of_identity unlogged_settings (client_identity unlogged_settings script "alice"))
       (attempts
          (world_after (user_login_failed unlogged_settings 60 "alice" (Some script))
             (world_after (user_logged_in unlogged_settings 50 browser "alice")
                (world_with [attempt_of "alice" 2 40]))))) = [1 + 2].
Proof.
  split; [reflexivity|]. split; [reflexivity|].
  destruct (login_without_reset_keeps_the_count (fw := framework) unlogged_settings
              50 60 browser "alice" (world_with [attempt_of "alice" 2 40])
              "alice" script (attempt_of "alice" 2 40)) as [_ Hnext].
  - reflexivity.
  - reflexivity.
  - reflexivity.
  - vm_compute. discriminate.
  - vm_compute. discriminate.
  - vm_compute. discriminate.
  - exact (f_equal (map AccessAttempt.failures_since_start) Hnext).
Defined.

(** A well-formed table with one record, and the three entry points. *)
Lemma handlers_keep_one_positive_record_per_identity_witness :
  positive_counts (attempts (world_with [attempt_of "alice" 2 40])) /\
  one_record_per_identity settings (attempts (world_with [attempt_of "alice" 2 40])) /\
  one_record_per_identity settings
    (attempts (world_after (user_login_failed settings 50 "alice" (Some script))
                 (world_with [attempt_of "alice" 2 40]))).
Proof.
  assert (Hpos : positive_counts (attempts (world_with [attempt_of "alice" 2 40]))).
  { constructor; [vm_compute; discriminate | constructor]. }
  assert (Hone : one_record_per_identity settings
                   (attempts (world_with [attempt_of "alice" 2 40]))).
  { constructor; [intros [] | constructor]. }
  split; [exact Hpos|]. split; [exact Hone|].
  destruct (handlers_keep_one_positive_record_per_identity (fw := framework) settings
              50 "alice" (Some script) browser "alice"
              (world_with [attempt_of "alice" 2 40]) Hpos Hone) as ((_ & Hkept) & _).
  exact Hkept.
Defined.

(** Three failures from the empty table. *)
Lemma failures_keep_the_table_well_formed_witness :
  positive_counts (attempts empty_world) /\
  one_record_per_identity settings (attempts empty_world) /\
  positive_counts (attempts (snd (handle_failures settings three_failures empty_world))) /\
  one_record_per_identity settings
    (attempts (snd (handle_failures settings three_failures empty_world))).
Proof.
  assert (Hpos : positive_counts (attempts empty_world)) by constructor.
  assert (Hone : one_record_per_identity settings (attempts empty_world)) by constructor.
  split; [exact Hpos|]. split; [exact Hone|].
  apply (failures_keep_the_table_well_formed (fw := framework) settings three_failures
           empty_world Hpos Hone).
Defined.

(** A logout without a user at time 500, over a record last touched at time
    10, and the logout of a named user. *)
Lemma logout_raises_exactly_without_a_user_witness :
  result_of (user_logged_out_receiver settings 500 browser None)
    (world_with [attempt_of "alice" 2 10]) = Raised no_user_error /\
  attempts (world_after (user_logged_out_receiver settings 500 browser None)
              (world_with [attempt_of "alice" 2 10])) = [] /\
  result_of (user_logged_out_receiver settings 500 browser (Some "alice"))
    (world_with [attempt_of "alice" 2 10]) = Returned tt.
Proof.
  destruct (logout_raises_exactly_without_a_user (fw := framework) settings 500 browser
              None (world_with [attempt_of "alice" 2 10]))
    as (Hswept & _ & Hnone & _).
  destruct (logout_raises_exactly_without_a_user (fw := framework) settings 500 browser
              (Some "alice") (world_with [attempt_of "alice" 2 10]))
    as (_ & _ & _ & Hsome).
  split; [apply (Hnone eq_refl)|]. split; [exact Hswept|].
  apply (Hsome "alice" eq_refl).
Defined.

